(** * A model of [database.py]: the SQLite data-access layer

    The module keeps user accounts, one automation configuration per user
    and one "admin thread" per user in three SQLite tables.  Every public
    function opens a connection, runs one to three statements, commits and
    closes.  The model below follows that shape:

    - Python [str] values are byte strings (their UTF-8 encoding); Python
      [int] values and SQLite INTEGERs are [Z], without the 64-bit bound of
      the storage class;
    - a table is the list of its rows, in insertion order, and the
      constraints of the schema (NOT NULL, UNIQUE, PRIMARY KEY) are checks
      made by the INSERT statements, not properties of the type;
    - a connection works on a private copy of the store once a data-changing
      statement has opened a transaction; only [commit] writes it back;
    - exceptions are values ([Raise]) and [try ... except] is [try_except];
    - the environment may make any driver call fail (a schedule of faults)
      and supplies CURRENT_TIMESTAMP. *)

From Stdlib Require Import ZArith List String Ascii Bool Lia.
Import ListNotations.
Local Open Scope string_scope.
Local Open Scope list_scope.
Local Open Scope Z_scope.

(** ** hashlib.sha256(...).hexdigest() *)

Module SHA256.

Definition mask32 : Z := 4294967295.
Definition w32 (x : Z) : Z := Z.land x mask32.
Definition add32 (x y : Z) : Z := w32 (x + y).

Definition rotr (n x : Z) : Z :=
  w32 (Z.lor (Z.shiftr x n) (Z.shiftl x (32 - n))).

Definition Ch (x y z : Z) : Z :=
  Z.lxor (Z.land x y) (Z.land (Z.lxor x mask32) z).
Definition Maj (x y z : Z) : Z :=
  Z.lxor (Z.lxor (Z.land x y) (Z.land x z)) (Z.land y z).
Definition bsig0 (x : Z) : Z := Z.lxor (Z.lxor (rotr 2 x) (rotr 13 x)) (rotr 22 x).
Definition bsig1 (x : Z) : Z := Z.lxor (Z.lxor (rotr 6 x) (rotr 11 x)) (rotr 25 x).
Definition ssig0 (x : Z) : Z := Z.lxor (Z.lxor (rotr 7 x) (rotr 18 x)) (Z.shiftr x 3).
Definition ssig1 (x : Z) : Z := Z.lxor (Z.lxor (rotr 17 x) (rotr 19 x)) (Z.shiftr x 10).

(** The round constants are the fractional parts of the cube roots of the
    first 64 primes, the initial state those of the square roots of the
    first 8; both are computed rather than tabulated. *)

Definition is_prime (n : Z) : bool :=
  (1 <? n) && forallb (fun d => negb (n mod d =? 0))
                      (map (fun k => Z.of_nat k + 2) (seq 0 (Z.to_nat (n - 2)))).

Definition primes64 : list Z :=
  Eval vm_compute in
    filter is_prime (map Z.of_nat (seq 2 310)).

(** Largest [r] with [r^3 <= n], found bit by bit from [2^bits] down. *)
Fixpoint icbrt_from (bits : nat) (n r : Z) : Z :=
  match bits with
  | O => if (r + 1) ^ 3 <=? n then r + 1 else r
  | S b =>
      let r' := r + 2 ^ Z.of_nat bits in
      icbrt_from b n (if r' ^ 3 <=? n then r' else r)
  end.

Definition K : list Z :=
  Eval vm_compute in
    map (fun p => w32 (icbrt_from 36 (p * 2 ^ 96) 0)) primes64.

Definition H0 : list Z :=
  Eval vm_compute in
    map (fun p => w32 (Z.sqrt (p * 2 ^ 64))) (firstn 8 primes64).

Definition byte_of (c : ascii) : Z := Z.of_nat (nat_of_ascii c).

Fixpoint bytes_of (s : string) : list Z :=
  match s with
  | EmptyString => []
  | String c r => byte_of c :: bytes_of r
  end.

(** Big-endian bytes of [x], [n] of them. *)
Fixpoint be_bytes (n : nat) (x : Z) : list Z :=
  match n with
  | O => []
  | S m => Z.land (Z.shiftr x (8 * Z.of_nat m)) 255 :: be_bytes m x
  end.

Definition pad (msg : list Z) : list Z :=
  let len := Z.of_nat (List.length msg) in
  let zeros := Z.to_nat ((55 - len) mod 64) in
  msg ++ [128] ++ repeat 0 zeros ++ be_bytes 8 (8 * len).

(** Cut the padded message into big-endian 32-bit words. *)
Fixpoint words_of (fuel : nat) (bs : list Z) : list Z :=
  match fuel, bs with
  | S f, b0 :: b1 :: b2 :: b3 :: rest =>
      (((b0 * 256 + b1) * 256 + b2) * 256 + b3) :: words_of f rest
  | _, _ => []
  end.

Fixpoint blocks_of (fuel : nat) (ws : list Z) : list (list Z) :=
  match fuel, ws with
  | _, [] => []
  | O, _ => []
  | S f, _ => firstn 16 ws :: blocks_of f (skipn 16 ws)
  end.

(** Message schedule; [rev_w] holds W(t-1), W(t-2), ... *)
Fixpoint extend (n : nat) (rev_w : list Z) : list Z :=
  match n with
  | O => rev_w
  | S m =>
      let w := add32 (add32 (ssig1 (nth 1 rev_w 0)) (nth 6 rev_w 0))
                     (add32 (ssig0 (nth 14 rev_w 0)) (nth 15 rev_w 0)) in
      extend m (w :: rev_w)
  end.

Definition schedule (block : list Z) : list Z := rev (extend 48 (rev block)).

Record regs := Regs { ra : Z; rb : Z; rc : Z; rd : Z; re : Z; rf : Z; rg : Z; rh : Z }.

Definition round (s : regs) (kw : Z * Z) : regs :=
  let t1 := add32 (add32 (add32 (rh s) (bsig1 (re s))) (Ch (re s) (rf s) (rg s)))
                  (add32 (fst kw) (snd kw)) in
  let t2 := add32 (bsig0 (ra s)) (Maj (ra s) (rb s) (rc s)) in
  Regs (add32 t1 t2) (ra s) (rb s) (rc s) (add32 (rd s) t1) (re s) (rf s) (rg s).

Definition compress (h : regs) (block : list Z) : regs :=
  let s := fold_left round (combine K (schedule block)) h in
  Regs (add32 (ra h) (ra s)) (add32 (rb h) (rb s)) (add32 (rc h) (rc s))
       (add32 (rd h) (rd s)) (add32 (re h) (re s)) (add32 (rf h) (rf s))
       (add32 (rg h) (rg s)) (add32 (rh h) (rh s)).

Definition init_regs : regs :=
  Regs (nth 0 H0 0) (nth 1 H0 0) (nth 2 H0 0) (nth 3 H0 0)
       (nth 4 H0 0) (nth 5 H0 0) (nth 6 H0 0) (nth 7 H0 0).

Definition digest_words (msg : list Z) : list Z :=
  let padded := pad msg in
  let ws := words_of (List.length padded) padded in
  let s := fold_left compress (blocks_of (List.length ws) ws) init_regs in
  [ra s; rb s; rc s; rd s; re s; rf s; rg s; rh s].

Definition hex_digit (d : Z) : ascii :=
  ascii_of_nat (Z.to_nat (if d <? 10 then 48 + d else 87 + d)).

Fixpoint hex_of (nibbles : nat) (x : Z) : string :=
  match nibbles with
  | O => EmptyString
  | S m => String (hex_digit (Z.land (Z.shiftr x (4 * Z.of_nat m)) 15)) (hex_of m x)
  end.

Definition hexdigest (msg : string) : string :=
  fold_right (fun w acc => String.append (hex_of 8 w) acc) EmptyString (digest_words (bytes_of msg)).

End SHA256.

(** ** Python values and exceptions *)

Inductive exn : Type :=
| IntegrityError (msg : string)     (* sqlite3.IntegrityError *)
| OperationalError (msg : string)   (* sqlite3.OperationalError *)
| ProgrammingError (msg : string)   (* sqlite3.ProgrammingError *)
| TypeError (msg : string).

Definition str (e : exn) : string :=
  match e with
  | IntegrityError m | OperationalError m | ProgrammingError m | TypeError m => m
  end.

Inductive outcome (A : Type) : Type :=
| Return (a : A)
| Raise (e : exn).
Arguments Return {A} a.
Arguments Raise {A} e.

(** What [get_automation_running] can hand back: the column value as the
    driver converts it (an [int], or [None] for NULL) or the literal
    [False]. *)
Inductive pyvalue : Type :=
| PyNone
| PyBool (b : bool)
| PyInt (z : Z).



(** ** The three tables *)

Definition timestamp : Type := Z.

Module Users.
Record row : Type := Row {
  id : Z;                      (* INTEGER PRIMARY KEY AUTOINCREMENT *)
  username : string;           (* TEXT UNIQUE NOT NULL *)
  password_hash : string;      (* TEXT NOT NULL *)
  created_at : timestamp;      (* DEFAULT CURRENT_TIMESTAMP *)
  is_active : option Z         (* BOOLEAN DEFAULT 1 *)
}.
End Users.

Module UserConfigs.
Record row : Type := Row {
  user_id : Z;                 (* INTEGER PRIMARY KEY *)
  chat_id : option string;
  name_prefix : option string;
  delay : option Z;            (* INTEGER DEFAULT 10 *)
  cookies : option string;
  messages : option string;
  automation_running : option Z;  (* BOOLEAN DEFAULT 0 *)
  updated_at : timestamp       (* DEFAULT CURRENT_TIMESTAMP *)
}.
End UserConfigs.

Module AdminThreads.
Record row : Type := Row {
  user_id : Z;                 (* INTEGER PRIMARY KEY *)
  thread_id : option string;
  cookies : option string;
  chat_type : option string;
  created_at : timestamp       (* DEFAULT CURRENT_TIMESTAMP *)
}.
End AdminThreads.

(** The dictionary [get_user_config] builds. *)
Module Config.
Record dict : Type := Dict {
  chat_id : option string;
  name_prefix : option string;
  delay : option Z;
  cookies : option string;
  messages : option string
}.
End Config.

(** The database file.  A table that was never created is [None].
    [sqlite_sequence] is the counter SQLite keeps for the AUTOINCREMENT
    column of [users]: the largest id ever handed out. *)
Record store : Type := Store {
  users : option (list Users.row);
  sqlite_sequence : Z;
  user_configs : option (list UserConfigs.row);
  admin_threads : option (list AdminThreads.row)
}.

Definition empty_file : store := Store None 0 None None.

Definition no_such_table {A} (name : string) : outcome A :=
  Raise (OperationalError (String.append "no such table: " name)).

(** ** The SQL statements of the module, one definition each *)

Module SQL.

(** CREATE TABLE IF NOT EXISTS users (...) *)
Definition create_users (s : store) : store :=
  match users s with
  | Some _ => s
  | None => Store (Some []) (sqlite_sequence s) (user_configs s) (admin_threads s)
  end.

(** CREATE TABLE IF NOT EXISTS user_configs (...) *)
Definition create_user_configs (s : store) : store :=
  match user_configs s with
  | Some _ => s
  | None => Store (users s) (sqlite_sequence s) (Some []) (admin_threads s)
  end.

(** CREATE TABLE IF NOT EXISTS admin_threads (...) *)
Definition create_admin_threads (s : store) : store :=
  match admin_threads s with
  | Some _ => s
  | None => Store (users s) (sqlite_sequence s) (user_configs s) (Some [])
  end.

Definition max_id (rows : list Users.row) : Z :=
  fold_right (fun r m => Z.max (Users.id r) m) 0 rows.

(** AUTOINCREMENT: one more than the largest id that ever existed. *)
Definition next_id (s : store) (rows : list Users.row) : Z :=
  Z.max (sqlite_sequence s) (max_id rows) + 1.

(** INSERT INTO users (username, password_hash) VALUES (?, ?) *)
Definition insert_user (now : timestamp) (username password_hash : option string)
    (s : store) : outcome store :=
  match users s with
  | None => no_such_table "users"
  | Some rows =>
      match username, password_hash with
      | None, _ => Raise (IntegrityError "NOT NULL constraint failed: users.username")
      | _, None => Raise (IntegrityError "NOT NULL constraint failed: users.password_hash")
      | Some u, Some h =>
          if existsb (fun r => String.eqb (Users.username r) u) rows
          then Raise (IntegrityError "UNIQUE constraint failed: users.username")
          else
            let i := next_id s rows in
            Return (Store (Some (rows ++ [Users.Row i u h now (Some 1)])) i
                          (user_configs s) (admin_threads s))
      end
  end.

(** SELECT id FROM users WHERE username = ? *)
Definition select_id_by_username (username : string) (s : store) : outcome (list Z) :=
  match users s with
  | None => no_such_table "users"
  | Some rows =>
      Return (map Users.id
                  (filter (fun r => String.eqb (Users.username r) username) rows))
  end.

(** SELECT id FROM users
    WHERE username = ? AND password_hash = ? AND is_active = 1 *)
Definition select_id_by_credentials (username password_hash : string) (s : store)
    : outcome (list Z) :=
  match users s with
  | None => no_such_table "users"
  | Some rows =>
      Return (map Users.id
                  (filter (fun r => String.eqb (Users.username r) username
                                    && String.eqb (Users.password_hash r) password_hash
                                    && match Users.is_active r with
                                       | Some a => a =? 1
                                       | None => false
                                       end) rows))
  end.

(** SELECT username FROM users WHERE id = ? *)
Definition select_username (user_id : Z) (s : store) : outcome (list string) :=
  match users s with
  | None => no_such_table "users"
  | Some rows =>
      Return (map Users.username (filter (fun r => Users.id r =? user_id) rows))
  end.

(** INSERT INTO user_configs
      (user_id, chat_id, name_prefix, delay, cookies, messages)
    VALUES (?, ?, ?, ?, ?, ?)
    [automation_running] and [updated_at] take their defaults; the foreign
    key is declared but SQLite does not enforce it unless asked to. *)
Definition insert_config (now : timestamp) (user_id : Z)
    (chat_id name_prefix : option string) (delay : option Z)
    (cookies messages : option string) (s : store) : outcome store :=
  match user_configs s with
  | None => no_such_table "user_configs"
  | Some rows =>
      if existsb (fun r => UserConfigs.user_id r =? user_id) rows
      then Raise (IntegrityError "UNIQUE constraint failed: user_configs.user_id")
      else
        Return (Store (users s) (sqlite_sequence s)
                      (Some (rows ++ [UserConfigs.Row user_id chat_id name_prefix delay
                                                      cookies messages (Some 0) now]))
                      (admin_threads s))
  end.

(** SELECT chat_id, name_prefix, delay, cookies, messages
    FROM user_configs WHERE user_id = ? *)
Definition select_config (user_id : Z) (s : store)
    : outcome (list (option string * option string * option Z
                     * option string * option string)) :=
  match user_configs s with
  | None => no_such_table "user_configs"
  | Some rows =>
      Return (map (fun r => (UserConfigs.chat_id r, UserConfigs.name_prefix r,
                             UserConfigs.delay r, UserConfigs.cookies r,
                             UserConfigs.messages r))
                  (filter (fun r => UserConfigs.user_id r =? user_id) rows))
  end.

(** UPDATE user_configs
    SET chat_id = ?, name_prefix = ?, delay = ?, cookies = ?, messages = ?,
        updated_at = CURRENT_TIMESTAMP
    WHERE user_id = ? *)
Definition update_config (now : timestamp)
    (chat_id name_prefix : option string) (delay : option Z)
    (cookies messages : option string) (user_id : Z) (s : store) : outcome store :=
  match user_configs s with
  | None => no_such_table "user_configs"
  | Some rows =>
      Return (Store (users s) (sqlite_sequence s)
                    (Some (map (fun r =>
                                  if UserConfigs.user_id r =? user_id
                                  then UserConfigs.Row (UserConfigs.user_id r) chat_id
                                         name_prefix delay cookies messages
                                         (UserConfigs.automation_running r) now
                                  else r) rows))
                    (admin_threads s))
  end.

(** UPDATE user_configs SET automation_running = ? WHERE user_id = ? *)
Definition update_automation_running (flag : option Z) (user_id : Z) (s : store)
    : outcome store :=
  match user_configs s with
  | None => no_such_table "user_configs"
  | Some rows =>
      Return (Store (users s) (sqlite_sequence s)
                    (Some (map (fun r =>
                                  if UserConfigs.user_id r =? user_id
                                  then UserConfigs.Row (UserConfigs.user_id r)
                                         (UserConfigs.chat_id r) (UserConfigs.name_prefix r)
                                         (UserConfigs.delay r) (UserConfigs.cookies r)
                                         (UserConfigs.messages r) flag
                                         (UserConfigs.updated_at r)
                                  else r) rows))
                    (admin_threads s))
  end.

(** SELECT automation_running FROM user_configs WHERE user_id = ? *)
Definition select_automation_running (user_id : Z) (s : store)
    : outcome (list (option Z)) :=
  match user_configs s with
  | None => no_such_table "user_configs"
  | Some rows =>
      Return (map UserConfigs.automation_running
                  (filter (fun r => UserConfigs.user_id r =? user_id) rows))
  end.

(** SELECT user_id FROM admin_threads WHERE user_id = ? *)
Definition select_thread_owner (user_id : Z) (s : store) : outcome (list Z) :=
  match admin_threads s with
  | None => no_such_table "admin_threads"
  | Some rows =>
      Return (map AdminThreads.user_id
                  (filter (fun r => AdminThreads.user_id r =? user_id) rows))
  end.

(** UPDATE admin_threads
    SET thread_id = ?, cookies = ?, chat_type = ?, created_at = CURRENT_TIMESTAMP
    WHERE user_id = ? *)
Definition update_thread (now : timestamp) (thread_id cookies chat_type : option string)
    (user_id : Z) (s : store) : outcome store :=
  match admin_threads s with
  | None => no_such_table "admin_threads"
  | Some rows =>
      Return (Store (users s) (sqlite_sequence s) (user_configs s)
                    (Some (map (fun r =>
                                  if AdminThreads.user_id r =? user_id
                                  then AdminThreads.Row (AdminThreads.user_id r)
                                         thread_id cookies chat_type now
                                  else r) rows)))
  end.

(** INSERT INTO admin_threads (user_id, thread_id, cookies, chat_type)
    VALUES (?, ?, ?, ?) *)
Definition insert_thread (now : timestamp) (user_id : Z)
    (thread_id cookies chat_type : option string) (s : store) : outcome store :=
  match admin_threads s with
  | None => no_such_table "admin_threads"
  | Some rows =>
      if existsb (fun r => AdminThreads.user_id r =? user_id) rows
      then Raise (IntegrityError "UNIQUE constraint failed: admin_threads.user_id")
      else
        Return (Store (users s) (sqlite_sequence s) (user_configs s)
                      (Some (rows ++ [AdminThreads.Row user_id thread_id cookies
                                                       chat_type now])))
  end.

(** SELECT thread_id FROM admin_threads WHERE user_id = ? *)
Definition select_thread_id (user_id : Z) (s : store) : outcome (list (option string)) :=
  match admin_threads s with
  | None => no_such_table "admin_threads"
  | Some rows =>
      Return (map AdminThreads.thread_id
                  (filter (fun r => AdminThreads.user_id r =? user_id) rows))
  end.

End SQL.

(** ** The driver: connections, transactions, faults *)

(** A connection is closed, open with no transaction, or inside a
    transaction working on its own copy of the store. *)
Inductive connection : Type :=
| Closed
| Idle
| InTransaction (working : store).

(** [faults] is the environment's schedule: each driver call that touches
    the database takes the next entry and fails with
    [OperationalError msg] on [Some msg]; an exhausted schedule means no
    further fault.  [now] is what CURRENT_TIMESTAMP evaluates to. *)
Record world : Type := World {
  disk : store;
  conn : connection;
  faults : list (option string);
  now : timestamp
}.

Definition M (A : Type) : Type := world -> outcome A * world.

Definition ret {A} (a : A) : M A := fun w => (Return a, w).

Definition bind {A B} (m : M A) (f : A -> M B) : M B :=
  fun w =>
    match m w with
    | (Return a, w') => f a w'
    | (Raise e, w') => (Raise e, w')
    end.

Definition raise {A} (e : exn) : M A := fun w => (Raise e, w).

(** [try: body except e: handler e] *)
Definition try_except {A} (body : M A) (handler : exn -> M A) : M A :=
  fun w =>
    match body w with
    | (Return a, w') => (Return a, w')
    | (Raise e, w') => handler e w'
    end.

Declare Scope py_scope.
Delimit Scope py_scope with py.
Notation "x <- m ;; k" := (bind m (fun x => k))
  (at level 61, m at next level, right associativity) : py_scope.
Notation "m ;; k" := (bind m (fun _ => k))
  (at level 61, right associativity) : py_scope.
Local Open Scope py_scope.

Definition fault_point : M unit :=
  fun w =>
    match faults w with
    | [] => (Return tt, w)
    | None :: rest => (Return tt, World (disk w) (conn w) rest (now w))
    | Some msg :: rest =>
        (Raise (OperationalError msg), World (disk w) (conn w) rest (now w))
    end.

Definition closed_database {A} : outcome A :=
  Raise (ProgrammingError "Cannot operate on a closed database.").

(** [sqlite3.connect('e2ee_users.db', check_same_thread=False)] *)
Definition get_db_connection : M unit :=
  fault_point ;;
  fun w => (Return tt, World (disk w) Idle (faults w) (now w)).

(** [conn.execute] of a CREATE TABLE: the driver opens no transaction for
    it, so outside a transaction it goes straight to the file. *)
Definition execute_create (stmt : store -> store) : M unit :=
  fault_point ;;
  fun w =>
    match conn w with
    | Closed => (closed_database, w)
    | Idle => (Return tt, World (stmt (disk w)) Idle (faults w) (now w))
    | InTransaction s =>
        (Return tt, World (disk w) (InTransaction (stmt s)) (faults w) (now w))
    end.

(** [conn.execute] of an INSERT or UPDATE: the driver first opens a
    transaction if none is open; the statement then changes the
    connection's working copy only. *)
Definition execute (stmt : timestamp -> store -> outcome store) : M unit :=
  fault_point ;;
  fun w =>
    match conn w with
    | Closed => (closed_database, w)
    | Idle =>
        match stmt (now w) (disk w) with
        | Return s' => (Return tt, World (disk w) (InTransaction s') (faults w) (now w))
        | Raise e => (Raise e, World (disk w) (InTransaction (disk w)) (faults w) (now w))
        end
    | InTransaction s =>
        match stmt (now w) s with
        | Return s' => (Return tt, World (disk w) (InTransaction s') (faults w) (now w))
        | Raise e => (Raise e, w)
        end
    end.

(** [conn.execute] of a SELECT: the rows the cursor will deliver. *)
Definition execute_select {A} (q : store -> outcome (list A)) : M (list A) :=
  fault_point ;;
  fun w =>
    match conn w with
    | Closed => (closed_database, w)
    | Idle => (q (disk w), w)
    | InTransaction s => (q s, w)
    end.

(** [cursor.fetchone()]: the first row, or [None]. *)
Definition fetchone {A} (cursor : list A) : option A := hd_error cursor.

(** [row[column]] where [row] may be [None]. *)
Definition subscript {A} (row : option A) : M A :=
  match row with
  | Some v => ret v
  | None => raise (TypeError "'NoneType' object is not subscriptable")
  end.

(** [conn.commit()] *)
Definition commit : M unit :=
  fault_point ;;
  fun w =>
    match conn w with
    | Closed => (closed_database, w)
    | Idle => (Return tt, w)
    | InTransaction s => (Return tt, World s Idle (faults w) (now w))
    end.

(** [conn.close()]: whatever was not committed is rolled back. *)
Definition close : M unit :=
  fun w => (Return tt, World (disk w) Closed (faults w) (now w)).

(** ** The functions of [database.py] *)

Definition init_db : M unit :=
  get_db_connection ;;
  execute_create SQL.create_users ;;
  execute_create SQL.create_user_configs ;;
  execute_create SQL.create_admin_threads ;;
  commit ;;
  close.

Definition default_messages : string :=
  String.append "Hello!"
    (String (ascii_of_nat 10)
       (String.append "How are you?"
          (String (ascii_of_nat 10) "Nice to meet you!"))).

Definition create_user (username password : string) : M (bool * string) :=
  try_except
    (let password_hash := SHA256.hexdigest password in
     get_db_connection ;;
     execute (fun t => SQL.insert_user t (Some username) (Some password_hash)) ;;
     cursor <- execute_select (SQL.select_id_by_username username) ;;
     user_id <- subscript (fetchone cursor) ;;
     execute (fun t => SQL.insert_config t user_id (Some "") (Some "[END TO END]")
                         (Some 10) (Some "") (Some default_messages)) ;;
     commit ;;
     close ;;
     ret (true, "Account created successfully!"))
    (fun e =>
       match e with
       | IntegrityError _ => ret (false, "Username already exists!")
       | _ => ret (false, String.append "Error: " (str e))
       end).

Definition verify_user (username password : string) : M (option Z) :=
  try_except
    (let password_hash := SHA256.hexdigest password in
     get_db_connection ;;
     cursor <- execute_select (SQL.select_id_by_credentials username password_hash) ;;
     let user := fetchone cursor in
     close ;;
     ret user)
    (fun _ => ret None).

Definition get_user_config (user_id : Z) : M (option Config.dict) :=
  try_except
    (get_db_connection ;;
     cursor <- execute_select (SQL.select_config user_id) ;;
     let config := fetchone cursor in
     close ;;
     ret (match config with
          | Some (chat_id, name_prefix, delay, cookies, messages) =>
              Some (Config.Dict chat_id name_prefix delay cookies messages)
          | None => None
          end))
    (fun _ => ret None).

Definition update_user_config (user_id : Z) (chat_id name_prefix : string) (delay : Z)
    (cookies messages : string) : M bool :=
  try_except
    (get_db_connection ;;
     execute (fun t => SQL.update_config t (Some chat_id) (Some name_prefix) (Some delay)
                         (Some cookies) (Some messages) user_id) ;;
     commit ;;
     close ;;
     ret true)
    (fun _ => ret false).

Definition set_automation_running (user_id : Z) (running : bool) : M bool :=
  try_except
    (get_db_connection ;;
     execute (fun _ => SQL.update_automation_running
                         (Some (if running then 1 else 0)) user_id) ;;
     commit ;;
     close ;;
     ret true)
    (fun _ => ret false).

Definition get_automation_running (user_id : Z) : M pyvalue :=
  try_except
    (get_db_connection ;;
     cursor <- execute_select (SQL.select_automation_running user_id) ;;
     let result := fetchone cursor in
     close ;;
     ret (match result with
          | Some (Some flag) => PyInt flag
          | Some None => PyNone
          | None => PyBool false
          end))
    (fun _ => ret (PyBool false)).

Definition get_username (user_id : Z) : M (option string) :=
  try_except
    (get_db_connection ;;
     cursor <- execute_select (SQL.select_username user_id) ;;
     let user := fetchone cursor in
     close ;;
     ret user)
    (fun _ => ret None).

(** The handler also prints the exception; standard output is not part
    of the model. *)
Definition set_admin_e2ee_thread_id (user_id : Z) (thread_id cookies chat_type : string)
    : M bool :=
  try_except
    (get_db_connection ;;
     cursor <- execute_select (SQL.select_thread_owner user_id) ;;
     let existing := fetchone cursor in
     match existing with
     | Some _ =>
         execute (fun t => SQL.update_thread t (Some thread_id) (Some cookies)
                             (Some chat_type) user_id)
     | None =>
         execute (fun t => SQL.insert_thread t user_id (Some thread_id) (Some cookies)
                             (Some chat_type))
     end ;;
     commit ;;
     close ;;
     ret true)
    (fun _ => ret false).

Definition get_admin_e2ee_thread_id (user_id : Z) : M (option string) :=
  try_except
    (get_db_connection ;;
     cursor <- execute_select (SQL.select_thread_id user_id) ;;
     let result := fetchone cursor in
     close ;;
     ret (match result with
          | Some thread => thread
          | None => None
          end))
    (fun _ => ret None).

(** ** Calling the module *)

(** What the environment contributes to one call: the time and the faults
    it will inject. *)
Record env : Type := Env {
  clock : timestamp;
  schedule : list (option string)
}.

(** An environment in which the store works. *)
Definition calm (t : timestamp) : env := Env t [].

(** One call of a function of the module on the database file [db].  The
    connection is a local of the called function: it is gone when the
    function returns or raises, so only what was committed is left. *)
Definition call {A} (f : M A) (e : env) (db : store) : outcome A * store :=
  let (r, w) := f (World db Closed (schedule e) (clock e)) in
  (r, disk w).

(** ** Histories of the store *)

Inductive request : Type :=
| Init_db
| Create_user (username password : string)
| Verify_user (username password : string)
| Get_user_config (user_id : Z)
| Update_user_config (user_id : Z) (chat_id name_prefix : string) (delay : Z)
                     (cookies messages : string)
| Set_automation_running (user_id : Z) (running : bool)
| Get_automation_running (user_id : Z)
| Get_username (user_id : Z)
| Set_admin_e2ee_thread_id (user_id : Z) (thread_id cookies chat_type : string)
| Get_admin_e2ee_thread_id (user_id : Z).

(** The database file after the module served one request. *)
Definition serve (r : request) (e : env) (db : store) : store :=
  match r with
  | Init_db => snd (call init_db e db)
  | Create_user u p => snd (call (create_user u p) e db)
  | Verify_user u p => snd (call (verify_user u p) e db)
  | Get_user_config i => snd (call (get_user_config i) e db)
  | Update_user_config i c n d k m => snd (call (update_user_config i c n d k m) e db)
  | Set_automation_running i b => snd (call (set_automation_running i b) e db)
  | Get_automation_running i => snd (call (get_automation_running i) e db)
  | Get_username i => snd (call (get_username i) e db)
  | Set_admin_e2ee_thread_id i t c k => snd (call (set_admin_e2ee_thread_id i t c k) e db)
  | Get_admin_e2ee_thread_id i => snd (call (get_admin_e2ee_thread_id i) e db)
  end.

(** [later s s']: some sequence of requests, in any environments, leads
    from [s] to [s']. *)
Inductive later (s : store) : store -> Prop :=
| later_refl : later s s
| later_step s' r e : later s s' -> later s (serve r e s').

(** The stores the module can be in: the module runs [init_db()] when it is
    imported, on a new file the first time, and serves requests after an
    import that succeeded. *)
Definition reachable (s : store) : Prop :=
  exists e,
    fst (call init_db e empty_file) = Return tt /\
    later (snd (call init_db e empty_file)) s.

(** ** Vocabulary of the statements *)

Definition user_rows (s : store) : list Users.row :=
  match users s with Some rows => rows | None => [] end.

Definition config_rows (s : store) : list UserConfigs.row :=
  match user_configs s with Some rows => rows | None => [] end.

Definition thread_rows (s : store) : list AdminThreads.row :=
  match admin_threads s with Some rows => rows | None => [] end.

(** The rows a user identifier owns. *)
Definition configs_of (user_id : Z) (s : store) : list UserConfigs.row :=
  filter (fun r => UserConfigs.user_id r =? user_id) (config_rows s).

Definition threads_of (user_id : Z) (s : store) : list AdminThreads.row :=
  filter (fun r => AdminThreads.user_id r =? user_id) (thread_rows s).

Definition username_taken (username : string) (s : store) : bool :=
  existsb (fun r => String.eqb (Users.username r) username) (user_rows s).

Definition schema_complete (s : store) : bool :=
  match users s, user_configs s, admin_threads s with
  | Some _, Some _, Some _ => true
  | _, _, _ => false
  end.

(** The row [create_user] gives a new user [i] at time [t]. *)
Definition default_config (i : Z) (t : timestamp) : UserConfigs.row :=
  UserConfigs.Row i (Some "") (Some "[END TO END]") (Some 10) (Some "")
                  (Some default_messages) (Some 0) t.



(** The store after [create_user] committed a new account at time [t]:
    one more user row, with the next AUTOINCREMENT id, and its
    configuration row. *)
Definition with_new_user (t : timestamp) (username password_hash : string) (s : store)
    : store :=
  let i := SQL.next_id s (user_rows s) in
  Store (Some (user_rows s ++ [Users.Row i username password_hash t (Some 1)])) i
        (Some (config_rows s ++ [default_config i t])) (admin_threads s).

(** What every reachable store satisfies. *)
Record consistent (s : store) : Prop := Consistent {
  cons_schema : schema_complete s = true;
  cons_usernames : NoDup (map Users.username (user_rows s));
  cons_user_ids : forall i, In i (map Users.id (user_rows s)) -> i <= sqlite_sequence s;
  cons_config_ids :
    forall i, In i (map UserConfigs.user_id (config_rows s)) -> i <= sqlite_sequence s;
  cons_config_keys : NoDup (map UserConfigs.user_id (config_rows s));
  cons_thread_keys : NoDup (map AdminThreads.user_id (thread_rows s));
  cons_no_orphan :
    forall i, In i (map Users.id (user_rows s)) ->
              In i (map UserConfigs.user_id (config_rows s))
}.

(** ** A sample history *)

(** The file after the first import. *)
Definition fresh_store : store := Store (Some []) 0 (Some []) (Some []).

(** Bob signs up and registers an admin thread. *)
Definition sample_store : store :=
  serve (Set_admin_e2ee_thread_id 1 "t-100" "c_user=1" "E2EE") (calm 1700000050)
        (serve (Create_user "bob" "hunter2") (calm 1700000000) fresh_store).

(** Then Alice signs up. *)
Definition sample_store_with_alice : store :=
  serve (Create_user "alice" "secret") (calm 1700000100) sample_store.

(** An environment whose fourth driver call fails. *)
Definition failing_fourth_call : env :=
  Env 1700000100 [None; None; None; Some "disk I/O error"].

(** ** More of what reachable stores satisfy *)

(** A configuration row as the module writes them: no NULL in the five
    fields, and a flag that is 0 or 1. *)
Definition filled (r : UserConfigs.row) : Prop :=
  exists c n d k m (b : bool),
    r = UserConfigs.Row (UserConfigs.user_id r) (Some c) (Some n) (Some d) (Some k)
                        (Some m) (Some (if b then 1 else 0)) (UserConfigs.updated_at r).

(** Identifiers are 1, 2, 3, ... in the order of creation, the counter is
    the number of accounts, configuration rows match the accounts one to
    one, every account is active, and no row carries a NULL the module
    reads. *)
Record orderly (s : store) : Prop := Orderly {
  ord_ids : map Users.id (user_rows s)
            = map Z.of_nat (seq 1 (List.length (user_rows s)));
  ord_sequence : sqlite_sequence s = Z.of_nat (List.length (user_rows s));
  ord_configs : map UserConfigs.user_id (config_rows s) = map Users.id (user_rows s);
  ord_active : Forall (fun r => Users.is_active r = Some 1) (user_rows s);
  ord_filled : Forall filled (config_rows s);
  ord_threads : Forall (fun r => AdminThreads.thread_id r <> None) (thread_rows s)
}.

(** The rows of [users] with a given id. *)
Definition users_with_id (user_id : Z) (s : store) : list Users.row :=
  filter (fun r => Users.id r =? user_id) (user_rows s).

(** The dictionary [get_user_config] returns for a new account. *)
Definition default_dict : Config.dict :=
  Config.Dict (Some "") (Some "[END TO END]") (Some 10) (Some "") (Some default_messages).

(** A file in which someone else left a configuration row for the id the
    next account will get, and one whose only account was deactivated. *)
Definition store_with_stray_config : store :=
  Store (Some []) 0 (Some [default_config 1 1700000000]) (Some []).

Definition store_with_inactive_user : store :=
  Store (Some [Users.Row 1 "bob" (SHA256.hexdigest "hunter2") 1700000000 (Some 0)]) 1
        (Some [default_config 1 1700000000]) (Some []).

(** ** Reading the monad as predicate transformers *)

(** [wp m w Q]: running [m] in world [w] ends in an outcome and a world
    that satisfy [Q]. *)
Definition wp {A} (m : M A) (w : world) (Q : outcome A -> world -> Prop) : Prop :=
  Q (fst (m w)) (snd (m w)).

(** The store a connection reads: its working copy inside a transaction,
    the file otherwise. *)
Definition view (d : store) (c : connection) : store :=
  match c with
  | InTransaction s => s
  | _ => d
  end.

Arguments SHA256.hexdigest : simpl never.
Arguments SQL.insert_user : simpl never.
Arguments SQL.insert_config : simpl never.
Arguments SQL.select_id_by_username : simpl never.
Arguments SQL.select_id_by_credentials : simpl never.
Arguments SQL.select_username : simpl never.
Arguments SQL.select_config : simpl never.
Arguments SQL.update_config : simpl never.
Arguments SQL.update_automation_running : simpl never.
Arguments SQL.select_automation_running : simpl never.
Arguments SQL.select_thread_owner : simpl never.
Arguments SQL.update_thread : simpl never.
Arguments SQL.insert_thread : simpl never.
Arguments SQL.select_thread_id : simpl never.
Arguments SQL.create_users : simpl never.
Arguments SQL.create_user_configs : simpl never.
Arguments SQL.create_admin_threads : simpl never.

(** * Checks of the digest against the published test vectors *)

Example primes64_length : List.length SHA256.primes64 = 64%nat.
Proof. reflexivity. Qed.

Example hexdigest_empty :
  SHA256.hexdigest "" = "e3b0c44298fc1c149afbf4c8996fb92427ae41e4649b934ca495991b7852b855".
Proof. vm_compute. reflexivity. Qed.

Example hexdigest_abc :
  SHA256.hexdigest "abc" = "ba7816bf8f01cfea414140de5dae2223b00361a396177a9cb410ff61f20015ad".
Proof. vm_compute. reflexivity. Qed.

Example hexdigest_two_blocks :
  SHA256.hexdigest "abcdbcdecdefdefgefghfghighijhijkijkljklmklmnlmnomnopnopq"
  = "248d6a61d20638b8e5c026930c3e6039a33ce45964ff2167f6ecedd419db06c1".
Proof. vm_compute. reflexivity. Qed.


(** * Reasoning about calls *)

(** ** Rules for the driver's operations *)

Lemma wp_ret {A} (a : A) w Q : Q (Return a) w -> wp (ret a) w Q.
Proof. exact (fun H => H). Qed.

Lemma wp_bind {A B} (m : M A) (f : A -> M B) w Q :
  wp m w (fun r w' => match r with
                      | Return a => wp (f a) w' Q
                      | Raise e => Q (Raise e) w'
                      end) ->
  wp (bind m f) w Q.
Proof.
  unfold wp, bind. destruct (m w) as [[a|e] w']; cbn; auto.
Qed.

Lemma wp_try_except {A} (body : M A) handler w Q :
  wp body w (fun r w' => match r with
                         | Return a => Q (Return a) w'
                         | Raise e => wp (handler e) w' Q
                         end) ->
  wp (try_except body handler) w Q.
Proof.
  unfold wp, try_except. destruct (body w) as [[a|e] w']; cbn; auto.
Qed.

Lemma wp_mono {A} (m : M A) w (Q Q' : outcome A -> world -> Prop) :
  wp m w Q -> (forall r w', Q r w' -> Q' r w') -> wp m w Q'.
Proof. unfold wp. auto. Qed.

Lemma wp_fault_point w Q :
  (forall fs, Q (Return tt) (World (disk w) (conn w) fs (now w))) ->
  (forall m fs, Q (Raise (OperationalError m)) (World (disk w) (conn w) fs (now w))) ->
  wp fault_point w Q.
Proof.
  intros Hok Herr. unfold wp, fault_point.
  destruct w as [d c fs t]; cbn in *.
  destruct fs as [|[m|] fs]; cbn; auto.
Qed.

Lemma wp_get_db_connection w Q :
  (forall fs, Q (Return tt) (World (disk w) Idle fs (now w))) ->
  (forall m fs, Q (Raise (OperationalError m)) (World (disk w) (conn w) fs (now w))) ->
  wp get_db_connection w Q.
Proof.
  intros Hok Herr. unfold get_db_connection.
  apply wp_bind, wp_fault_point; [intros fs | exact Herr].
  apply Hok.
Qed.

Lemma wp_execute stmt d c fs t Q :
  c <> Closed ->
  (forall s' fs', stmt t (view d c) = Return s' ->
                  Q (Return tt) (World d (InTransaction s') fs' t)) ->
  (forall e fs', Q (Raise e) (World d (InTransaction (view d c)) fs' t)) ->
  (forall e fs', Q (Raise e) (World d c fs' t)) ->
  wp (execute stmt) (World d c fs t) Q.
Proof.
  intros Hc Hok Herr Herr'. unfold execute.
  apply wp_bind, wp_fault_point; cbn; [intros fs' | intros; apply Herr'].
  unfold wp. destruct c as [| |s]; [congruence | |]; cbn.
  - destruct (stmt t d) eqn:E; cbn; auto.
  - destruct (stmt t s) eqn:E; cbn; auto.
Qed.

Lemma wp_execute_select {A} (q : store -> outcome (list A)) d c fs t Q :
  c <> Closed ->
  (forall fs', Q (q (view d c)) (World d c fs' t)) ->
  (forall e fs', Q (Raise e) (World d c fs' t)) ->
  wp (execute_select q) (World d c fs t) Q.
Proof.
  intros Hc Hok Herr. unfold execute_select.
  apply wp_bind, wp_fault_point; cbn; [intros fs' | intros; apply Herr].
  unfold wp. destruct c as [| |s]; [congruence | |]; cbn; apply Hok.
Qed.

Lemma wp_execute_create stmt d c fs t Q :
  c <> Closed ->
  (forall fs', Q (Return tt)
                 (match c with
                  | InTransaction s => World d (InTransaction (stmt s)) fs' t
                  | _ => World (stmt d) Idle fs' t
                  end)) ->
  (forall e fs', Q (Raise e) (World d c fs' t)) ->
  wp (execute_create stmt) (World d c fs t) Q.
Proof.
  intros Hc Hok Herr. unfold execute_create.
  apply wp_bind, wp_fault_point; cbn; [intros fs' | intros; apply Herr].
  unfold wp. destruct c as [| |s]; [congruence | |]; cbn; apply (Hok fs').
Qed.

Lemma wp_commit d c fs t Q :
  c <> Closed ->
  (forall fs', Q (Return tt) (World (view d c) Idle fs' t)) ->
  (forall e fs', Q (Raise e) (World d c fs' t)) ->
  wp commit (World d c fs t) Q.
Proof.
  intros Hc Hok Herr. unfold commit.
  apply wp_bind, wp_fault_point; cbn; [intros fs' | intros; apply Herr].
  unfold wp. destruct c as [| |s]; [congruence | |]; cbn; apply (Hok fs').
Qed.

Lemma wp_close d c fs t Q :
  Q (Return tt) (World d Closed fs t) -> wp close (World d c fs t) Q.
Proof. exact (fun H => H). Qed.

Lemma wp_call {A} (f : M A) e s (Q : outcome A -> world -> Prop) (P : outcome A * store -> Prop) :
  wp f (World s Closed (schedule e) (clock e)) Q ->
  (forall r w, Q r w -> P (r, disk w)) ->
  P (call f e s).
Proof.
  unfold wp, call. intros H HP.
  destruct (f _) as [r w]; cbn in *. auto.
Qed.

(** ** What a call can leave on file, whatever the environment does *)

Ltac wp_step :=
  lazymatch goal with
  | |- wp _ _ _ =>
      first
        [ apply wp_get_db_connection
        | apply wp_execute; [discriminate | | | ]
        | apply wp_execute_select; [discriminate | | ]
        | apply wp_execute_create; [discriminate | | ]
        | apply wp_commit; [discriminate | | ]
        | apply wp_close
        | apply wp_ret
        | apply wp_try_except
        | apply wp_bind ]
  | |- match ?x with Return _ => _ | Raise _ => _ end => destruct x eqn:?
  end;
  cbn [disk conn now faults view fetchone hd_error subscript]; intros.

Ltac wp_run := repeat wp_step.

Lemma create_user_effect e s u p :
  (exists msg, call (create_user u p) e s = (Return (false, msg), s)) \/
  (exists s1 uid rest s2,
      SQL.insert_user (clock e) (Some u) (Some (SHA256.hexdigest p)) s = Return s1 /\
      SQL.select_id_by_username u s1 = Return (uid :: rest) /\
      SQL.insert_config (clock e) uid (Some "") (Some "[END TO END]") (Some 10)
                        (Some "") (Some default_messages) s1 = Return s2 /\
      call (create_user u p) e s = (Return (true, "Account created successfully!"), s2)).
Proof.
  set (P := fun (x : outcome (bool * string) * store) =>
     (exists msg, x = (Return (false, msg), s)) \/
     (exists s1 uid rest s2,
      SQL.insert_user (clock e) (Some u) (Some (SHA256.hexdigest p)) s = Return s1 /\
      SQL.select_id_by_username u s1 = Return (uid :: rest) /\
      SQL.insert_config (clock e) uid (Some "") (Some "[END TO END]") (Some 10)
                        (Some "") (Some default_messages) s1 = Return s2 /\
      x = (Return (true, "Account created successfully!"), s2))).
  change (P (call (create_user u p) e s)).
  apply wp_call with (Q := fun r w => P (r, disk w)); [| auto].
  assert (Hfail : forall x w, disk w = s ->
            wp (match x with
                | IntegrityError _ => ret (false, "Username already exists!")
                | _ => ret (false, String.append "Error: " (str x))
                end) w (fun r w => P (r, disk w))).
  { intros x w <-. destruct x; apply wp_ret; left; eauto. }
  unfold create_user.
  wp_step. wp_step. wp_step; [| apply (Hfail (OperationalError m)); reflexivity].
  wp_step. wp_step; try (apply Hfail; reflexivity).
  wp_step. wp_step; try (apply Hfail; reflexivity).
  wp_step; [| apply Hfail; reflexivity].
  wp_step. destruct a as [|uid rest]; cbn [fetchone hd_error subscript].
  { apply (Hfail (TypeError _)); reflexivity. }
  wp_step. wp_step. wp_step; try (apply Hfail; reflexivity).
  wp_step. wp_step; try (apply Hfail; reflexivity).
  wp_step. wp_step. wp_step.
  right. exists s', uid, rest, s'0. auto.
Qed.

(** The readers never raise and never write. *)
Ltac reader_effect :=
  match goal with
  | |- exists r, call ?f ?e ?s = (Return r, ?s) =>
      apply (wp_call f e s
               (fun r w => (exists a, r = Return a) /\ disk w = s)
               (fun x => exists r, x = (Return r, s)));
      [| intros r w [[a ->] <-]; eauto]
  end;
  wp_run; cbn [disk]; eauto.

Lemma verify_user_effect e s u p :
  exists r, call (verify_user u p) e s = (Return r, s).
Proof. unfold verify_user. reader_effect. Qed.

Lemma get_user_config_effect e s i :
  exists r, call (get_user_config i) e s = (Return r, s).
Proof. unfold get_user_config. reader_effect. Qed.

Lemma get_automation_running_effect e s i :
  exists r, call (get_automation_running i) e s = (Return r, s).
Proof. unfold get_automation_running. reader_effect. Qed.

Lemma get_username_effect e s i :
  exists r, call (get_username i) e s = (Return r, s).
Proof. unfold get_username. reader_effect. Qed.

Lemma get_admin_e2ee_thread_id_effect e s i :
  exists r, call (get_admin_e2ee_thread_id i) e s = (Return r, s).
Proof. unfold get_admin_e2ee_thread_id. reader_effect. Qed.

(** The writers either commit their one statement or leave the file alone. *)
Ltac writer_effect P :=
  match goal with
  | |- _ (call ?f ?e ?s) => apply wp_call with (Q := fun r w => P (r, disk w)); [| auto]
  end.

Lemma update_user_config_effect e s i c n d k m :
  call (update_user_config i c n d k m) e s = (Return false, s) \/
  exists s1,
    SQL.update_config (clock e) (Some c) (Some n) (Some d) (Some k) (Some m) i s
    = Return s1 /\
    call (update_user_config i c n d k m) e s = (Return true, s1).
Proof.
  set (P := fun (x : outcome bool * store) =>
     x = (Return false, s) \/
     exists s1,
       SQL.update_config (clock e) (Some c) (Some n) (Some d) (Some k) (Some m) i s
       = Return s1 /\ x = (Return true, s1)).
  change (P (call (update_user_config i c n d k m) e s)).
  apply wp_call with (Q := fun r w => P (r, disk w)); [| auto].
  unfold update_user_config. wp_run; cbn [disk]; try (left; reflexivity).
  right. eauto.
Qed.

Lemma set_automation_running_effect e s i b :
  call (set_automation_running i b) e s = (Return false, s) \/
  exists s1,
    SQL.update_automation_running (Some (if b then 1 else 0)) i s = Return s1 /\
    call (set_automation_running i b) e s = (Return true, s1).
Proof.
  set (P := fun (x : outcome bool * store) =>
     x = (Return false, s) \/
     exists s1,
       SQL.update_automation_running (Some (if b then 1 else 0)) i s = Return s1 /\
       x = (Return true, s1)).
  change (P (call (set_automation_running i b) e s)).
  apply wp_call with (Q := fun r w => P (r, disk w)); [| auto].
  unfold set_automation_running. wp_run; cbn [disk]; try (left; reflexivity).
  right. eauto.
Qed.

Lemma set_admin_e2ee_thread_id_effect e s i th c k :
  call (set_admin_e2ee_thread_id i th c k) e s = (Return false, s) \/
  exists s1,
    ((exists owner rest,
         SQL.select_thread_owner i s = Return (owner :: rest) /\
         SQL.update_thread (clock e) (Some th) (Some c) (Some k) i s = Return s1) \/
     (SQL.select_thread_owner i s = Return [] /\
      SQL.insert_thread (clock e) i (Some th) (Some c) (Some k) s = Return s1)) /\
    call (set_admin_e2ee_thread_id i th c k) e s = (Return true, s1).
Proof.
  set (P := fun (x : outcome bool * store) =>
     x = (Return false, s) \/
     exists s1,
       ((exists owner rest,
            SQL.select_thread_owner i s = Return (owner :: rest) /\
            SQL.update_thread (clock e) (Some th) (Some c) (Some k) i s = Return s1) \/
        (SQL.select_thread_owner i s = Return [] /\
         SQL.insert_thread (clock e) i (Some th) (Some c) (Some k) s = Return s1)) /\
       x = (Return true, s1)).
  change (P (call (set_admin_e2ee_thread_id i th c k) e s)).
  apply wp_call with (Q := fun r w => P (r, disk w)); [| auto].
  unfold set_admin_e2ee_thread_id.
  wp_run; cbn [disk]; try (left; reflexivity).
  destruct a as [|owner rest]; cbn [fetchone hd_error];
    wp_run; cbn [disk]; try (left; reflexivity); right; eauto 10.
Qed.

Lemma init_db_effect e s :
  schema_complete s = true -> snd (call init_db e s) = s.
Proof.
  intros Hs.
  assert (H1 : SQL.create_users s = s).
  { unfold SQL.create_users, schema_complete in *. destruct (users s); congruence. }
  assert (H2 : SQL.create_user_configs s = s).
  { unfold SQL.create_user_configs, schema_complete in *.
    destruct (users s), (user_configs s); congruence. }
  assert (H3 : SQL.create_admin_threads s = s).
  { unfold SQL.create_admin_threads, schema_complete in *.
    destruct (users s), (user_configs s), (admin_threads s); congruence. }
  apply (wp_call init_db e s (fun _ w => disk w = s) (fun x => snd x = s)); [| auto].
  unfold init_db. wp_run; cbn [disk]; congruence.
Qed.

(** ** Tables as keyed lists *)

Section Keys.
Context {R K : Type} (key : R -> K) (eqb : K -> K -> bool).
Hypothesis eqb_eq : forall a b, eqb a b = true <-> a = b.

Lemma key_miss k r : eqb (key r) k = false <-> key r <> k.
Proof.
  rewrite <- eqb_eq. destruct (eqb (key r) k); split; congruence.
Qed.

Lemma existsb_key rows k :
  existsb (fun r => eqb (key r) k) rows = false <-> ~ In k (map key rows).
Proof.
  induction rows as [|r rows IH]; cbn.
  - tauto.
  - rewrite orb_false_iff, IH, key_miss. tauto.
Qed.

Lemma existsb_key_true rows k :
  existsb (fun r => eqb (key r) k) rows = true <-> In k (map key rows).
Proof.
  induction rows as [|r rows IH]; cbn.
  - split; [discriminate | tauto].
  - rewrite orb_true_iff, IH, eqb_eq. tauto.
Qed.

Lemma filter_key_absent rows k :
  ~ In k (map key rows) -> filter (fun r => eqb (key r) k) rows = [].
Proof.
  induction rows as [|r rows IH]; cbn; intros H; [reflexivity |].
  destruct (eqb (key r) k) eqn:E.
  - apply eqb_eq in E. tauto.
  - apply IH. tauto.
Qed.

Lemma filter_key_In rows k r :
  In r (filter (fun x => eqb (key x) k) rows) <-> In r rows /\ key r = k.
Proof. rewrite filter_In, eqb_eq. tauto. Qed.

Lemma filter_key_unique rows r :
  NoDup (map key rows) -> In r rows ->
  filter (fun x => eqb (key x) (key r)) rows = [r].
Proof.
  induction rows as [|x rows IH]; cbn; intros Hnd Hin; [tauto |].
  inversion Hnd as [|? ? Hx Hnd']; subst.
  destruct Hin as [-> | Hin].
  - replace (eqb (key r) (key r)) with true by (symmetry; apply eqb_eq; reflexivity).
    f_equal. apply filter_key_absent. assumption.
  - destruct (eqb (key x) (key r)) eqn:E.
    + apply eqb_eq in E. exfalso. apply Hx. rewrite E. apply in_map. assumption.
    + apply IH; assumption.
Qed.


Section Update.
Variable f : R -> R.
Hypothesis f_key : forall r, key (f r) = key r.

Lemma update_keys rows k :
  map key (map (fun r => if eqb (key r) k then f r else r) rows) = map key rows.
Proof.
  rewrite map_map. apply map_ext. intros r.
  destruct (eqb (key r) k); auto.
Qed.



End Update.
End Keys.

(** ** The statements, one by one *)

Lemma tables_of_complete s :
  schema_complete s = true ->
  users s = Some (user_rows s) /\
  user_configs s = Some (config_rows s) /\
  admin_threads s = Some (thread_rows s).
Proof.
  unfold schema_complete, user_rows, config_rows, thread_rows.
  destruct (users s), (user_configs s), (admin_threads s); intros H;
    try discriminate; auto.
Qed.


Lemma username_taken_false u s :
  username_taken u s = false <-> ~ In u (map Users.username (user_rows s)).
Proof. apply (existsb_key Users.username String.eqb String.eqb_eq). Qed.

Lemma username_taken_true u s :
  username_taken u s = true <-> In u (map Users.username (user_rows s)).
Proof. apply (existsb_key_true Users.username String.eqb String.eqb_eq). Qed.


Lemma next_id_above_sequence s rows : sqlite_sequence s < SQL.next_id s rows.
Proof. unfold SQL.next_id. lia. Qed.


Lemma insert_user_Return t u h s s1 :
  SQL.insert_user t (Some u) (Some h) s = Return s1 ->
  users s = Some (user_rows s) /\
  username_taken u s = false /\
  s1 = Store (Some (user_rows s ++
                    [Users.Row (SQL.next_id s (user_rows s)) u h t (Some 1)]))
             (SQL.next_id s (user_rows s)) (user_configs s) (admin_threads s).
Proof.
  unfold SQL.insert_user, username_taken, user_rows.
  destruct (users s) as [rows|]; [| discriminate].
  destruct (existsb _ rows); [discriminate |].
  intros H. inversion H. auto.
Qed.

Lemma insert_user_fresh t u h s :
  users s = Some (user_rows s) ->
  username_taken u s = false ->
  SQL.insert_user t (Some u) (Some h) s
  = Return (Store (Some (user_rows s ++
                         [Users.Row (SQL.next_id s (user_rows s)) u h t (Some 1)]))
                  (SQL.next_id s (user_rows s)) (user_configs s) (admin_threads s)).
Proof.
  unfold SQL.insert_user, username_taken. intros -> ->. reflexivity.
Qed.


Lemma select_new_user_id u rows i h t a q cs ts :
  ~ In u (map Users.username rows) ->
  SQL.select_id_by_username u (Store (Some (rows ++ [Users.Row i u h t a])) q cs ts)
  = Return [i].
Proof.
  intros Hfree. unfold SQL.select_id_by_username. cbn.
  rewrite filter_app, (filter_key_absent Users.username String.eqb String.eqb_eq) by assumption.
  cbn. rewrite String.eqb_refl. reflexivity.
Qed.

Lemma insert_config_Return t i c n d k m s s2 :
  SQL.insert_config t i c n d k m s = Return s2 ->
  user_configs s = Some (config_rows s) /\
  ~ In i (map UserConfigs.user_id (config_rows s)) /\
  s2 = Store (users s) (sqlite_sequence s)
             (Some (config_rows s ++ [UserConfigs.Row i c n d k m (Some 0) t]))
             (admin_threads s).
Proof.
  unfold SQL.insert_config, config_rows.
  destruct (user_configs s) as [rows|]; [| discriminate].
  destruct (existsb _ rows) eqn:E; [discriminate |].
  apply (existsb_key UserConfigs.user_id Z.eqb Z.eqb_eq) in E.
  intros H. inversion H. auto.
Qed.

Lemma insert_config_fresh t i c n d k m s :
  user_configs s = Some (config_rows s) ->
  ~ In i (map UserConfigs.user_id (config_rows s)) ->
  SQL.insert_config t i c n d k m s
  = Return (Store (users s) (sqlite_sequence s)
                  (Some (config_rows s ++ [UserConfigs.Row i c n d k m (Some 0) t]))
                  (admin_threads s)).
Proof.
  intros Ht Hfree. unfold SQL.insert_config. rewrite Ht.
  apply (existsb_key UserConfigs.user_id Z.eqb Z.eqb_eq) in Hfree.
  rewrite Hfree. reflexivity.
Qed.

Lemma insert_config_taken t i c n d k m s :
  In i (map UserConfigs.user_id (config_rows s)) ->
  exists msg, SQL.insert_config t i c n d k m s = Raise (IntegrityError msg).
Proof.
  unfold SQL.insert_config, config_rows.
  destruct (user_configs s) as [rows|]; cbn; [| tauto].
  intros H. apply (existsb_key_true UserConfigs.user_id Z.eqb Z.eqb_eq) in H.
  rewrite H. eauto.
Qed.

Lemma update_config_Return t c n d k m i s s1 :
  SQL.update_config t c n d k m i s = Return s1 ->
  user_configs s = Some (config_rows s) /\
  s1 = Store (users s) (sqlite_sequence s)
             (Some (map (fun r =>
                           if UserConfigs.user_id r =? i
                           then UserConfigs.Row (UserConfigs.user_id r) c n d k m
                                  (UserConfigs.automation_running r) t
                           else r) (config_rows s)))
             (admin_threads s).
Proof.
  unfold SQL.update_config, config_rows.
  destruct (user_configs s) as [rows|]; [| discriminate].
  intros H. inversion H. auto.
Qed.

Lemma update_automation_running_Return flag i s s1 :
  SQL.update_automation_running flag i s = Return s1 ->
  user_configs s = Some (config_rows s) /\
  s1 = Store (users s) (sqlite_sequence s)
             (Some (map (fun r =>
                           if UserConfigs.user_id r =? i
                           then UserConfigs.Row (UserConfigs.user_id r)
                                  (UserConfigs.chat_id r) (UserConfigs.name_prefix r)
                                  (UserConfigs.delay r) (UserConfigs.cookies r)
                                  (UserConfigs.messages r) flag (UserConfigs.updated_at r)
                           else r) (config_rows s)))
             (admin_threads s).
Proof.
  unfold SQL.update_automation_running, config_rows.
  destruct (user_configs s) as [rows|]; [| discriminate].
  intros H. inversion H. auto.
Qed.

Lemma update_thread_Return t th c k i s s1 :
  SQL.update_thread t th c k i s = Return s1 ->
  admin_threads s = Some (thread_rows s) /\
  s1 = Store (users s) (sqlite_sequence s) (user_configs s)
             (Some (map (fun r =>
                           if AdminThreads.user_id r =? i
                           then AdminThreads.Row (AdminThreads.user_id r) th c k t
                           else r) (thread_rows s))).
Proof.
  unfold SQL.update_thread, thread_rows.
  destruct (admin_threads s) as [rows|]; [| discriminate].
  intros H. inversion H. auto.
Qed.

Lemma insert_thread_Return t i th c k s s1 :
  SQL.insert_thread t i th c k s = Return s1 ->
  admin_threads s = Some (thread_rows s) /\
  ~ In i (map AdminThreads.user_id (thread_rows s)) /\
  s1 = Store (users s) (sqlite_sequence s) (user_configs s)
             (Some (thread_rows s ++ [AdminThreads.Row i th c k t])).
Proof.
  unfold SQL.insert_thread, thread_rows.
  destruct (admin_threads s) as [rows|]; [| discriminate].
  destruct (existsb _ rows) eqn:E; [discriminate |].
  apply (existsb_key AdminThreads.user_id Z.eqb Z.eqb_eq) in E.
  intros H. inversion H. auto.
Qed.

Lemma select_thread_owner_Return i s owners :
  SQL.select_thread_owner i s = Return owners ->
  admin_threads s = Some (thread_rows s) /\
  owners = map AdminThreads.user_id (threads_of i s).
Proof.
  unfold SQL.select_thread_owner, threads_of, thread_rows.
  destruct (admin_threads s) as [rows|]; [| discriminate].
  intros H. inversion H. auto.
Qed.

(** ** The invariant of reachable stores *)

Lemma NoDup_snoc {A} (l : list A) (a : A) : NoDup l -> ~ In a l -> NoDup (l ++ [a]).
Proof.
  intros Hl Ha. induction Hl as [|x l Hx Hl IH]; cbn.
  - constructor; [tauto | constructor].
  - constructor.
    + rewrite in_app_iff. cbn. intros [H | [H | []]]; [tauto |].
      apply Ha. left. congruence.
    + apply IH. intros H. apply Ha. right. exact H.
Qed.

Lemma create_user_commits t u h s s1 uid rest s2 :
  SQL.insert_user t (Some u) (Some h) s = Return s1 ->
  SQL.select_id_by_username u s1 = Return (uid :: rest) ->
  SQL.insert_config t uid (Some "") (Some "[END TO END]") (Some 10) (Some "")
                    (Some default_messages) s1 = Return s2 ->
  username_taken u s = false /\ s2 = with_new_user t u h s.
Proof.
  intros Hins Hsel Hcfg.
  apply insert_user_Return in Hins. destruct Hins as (_ & Hfree & ->).
  split; [exact Hfree |].
  rewrite select_new_user_id in Hsel by (apply username_taken_false; exact Hfree).
  inversion Hsel; subst uid rest.
  apply insert_config_Return in Hcfg. destruct Hcfg as (Ht & _ & ->).
  cbn in Ht. unfold config_rows at 1 in Ht. cbn in Ht.
  unfold with_new_user, default_config, config_rows. cbn.
  destruct (user_configs s); [reflexivity | discriminate].
Qed.

Lemma consistent_with_new_user t u h s :
  consistent s -> username_taken u s = false -> consistent (with_new_user t u h s).
Proof.
  intros [Hsch Hnames Huid Hcid Hckeys Htkeys Horph] Hfree.
  apply username_taken_false in Hfree.
  pose proof (next_id_above_sequence s (user_rows s)) as Hseq.
  destruct (tables_of_complete s Hsch) as (_ & _ & Hth).
  unfold with_new_user. split; cbn.
  - unfold schema_complete. cbn. rewrite Hth. reflexivity.
  - rewrite map_app. apply NoDup_snoc; assumption.
  - intros i. rewrite map_app, in_app_iff. cbn.
    intros [H | [<- | []]]; [apply Huid in H; lia | lia].
  - intros i. rewrite map_app, in_app_iff. cbn.
    intros [H | [<- | []]]; [apply Hcid in H; lia | lia].
  - rewrite map_app. apply NoDup_snoc; [assumption |].
    intros H. apply Hcid in H. cbn in H. lia.
  - unfold thread_rows in *. cbn. exact Htkeys.
  - intros i. rewrite !map_app, !in_app_iff. cbn.
    intros [H | H]; [left; auto | right; exact H].
Qed.

Lemma consistent_update_configs s f i :
  (forall r, UserConfigs.user_id (f r) = UserConfigs.user_id r) ->
  consistent s ->
  consistent (Store (users s) (sqlite_sequence s)
                    (Some (map (fun r => if UserConfigs.user_id r =? i then f r else r)
                               (config_rows s)))
                    (admin_threads s)).
Proof.
  intros Hf [Hsch Hnames Huid Hcid Hckeys Htkeys Horph].
  destruct (tables_of_complete s Hsch) as (Hu & _ & Hth).
  pose proof (update_keys UserConfigs.user_id Z.eqb f Hf (config_rows s) i) as Hkeys.
  split; cbn; unfold user_rows, config_rows, thread_rows in *; cbn;
    try rewrite Hkeys; try assumption.
  unfold schema_complete. cbn. rewrite Hu, Hth. reflexivity.
Qed.

Lemma consistent_update_threads s f i :
  (forall r, AdminThreads.user_id (f r) = AdminThreads.user_id r) ->
  consistent s ->
  consistent (Store (users s) (sqlite_sequence s) (user_configs s)
                    (Some (map (fun r => if AdminThreads.user_id r =? i then f r else r)
                               (thread_rows s)))).
Proof.
  intros Hf [Hsch Hnames Huid Hcid Hckeys Htkeys Horph].
  destruct (tables_of_complete s Hsch) as (Hu & Hc & _).
  pose proof (update_keys AdminThreads.user_id Z.eqb f Hf (thread_rows s) i) as Hkeys.
  split; cbn; unfold user_rows, config_rows, thread_rows in *; cbn;
    try rewrite Hkeys; try assumption.
  unfold schema_complete. cbn. rewrite Hu, Hc. reflexivity.
Qed.

Lemma consistent_insert_thread s r :
  ~ In (AdminThreads.user_id r) (map AdminThreads.user_id (thread_rows s)) ->
  consistent s ->
  consistent (Store (users s) (sqlite_sequence s) (user_configs s)
                    (Some (thread_rows s ++ [r]))).
Proof.
  intros Hfree [Hsch Hnames Huid Hcid Hckeys Htkeys Horph].
  destruct (tables_of_complete s Hsch) as (Hu & Hc & _).
  split; cbn; unfold user_rows, config_rows in *; cbn; try assumption.
  - unfold schema_complete. cbn. rewrite Hu, Hc. reflexivity.
  - unfold thread_rows at 1. cbn. rewrite map_app. apply NoDup_snoc; assumption.
Qed.

(** Every request keeps the invariant and only ever appends user rows. *)
Lemma serve_consistent r e s :
  consistent s ->
  consistent (serve r e s) /\ exists extra, user_rows (serve r e s) = user_rows s ++ extra.
Proof.
  intros Hs.
  assert (Hsame : consistent s /\ exists extra, user_rows s = user_rows s ++ extra).
  { split; [exact Hs | exists []; rewrite app_nil_r; reflexivity]. }
  destruct r as [|u p|u p|i|i c n d k m|i b|i|i|i th c k|i]; cbn [serve].
  - rewrite init_db_effect by apply Hs. exact Hsame.
  - destruct (create_user_effect e s u p) as [[msg ->] | (s1 & uid & rest & s2 & H1 & H2 & H3 & ->)];
      cbn [snd]; [exact Hsame |].
    destruct (create_user_commits _ _ _ _ _ _ _ _ H1 H2 H3) as [Hfree ->].
    split; [apply consistent_with_new_user; assumption |].
    unfold with_new_user, user_rows at 1. cbn. eauto.
  - destruct (verify_user_effect e s u p) as [x ->]. exact Hsame.
  - destruct (get_user_config_effect e s i) as [x ->]. exact Hsame.
  - destruct (update_user_config_effect e s i c n d k m) as [-> | (s1 & H1 & ->)];
      cbn [snd]; [exact Hsame |].
    apply update_config_Return in H1. destruct H1 as [_ ->].
    split.
    + apply (consistent_update_configs s
               (fun r => UserConfigs.Row (UserConfigs.user_id r) (Some c) (Some n) (Some d)
                           (Some k) (Some m) (UserConfigs.automation_running r) (clock e)));
        [reflexivity | exact Hs].
    + exists []. rewrite app_nil_r. reflexivity.
  - destruct (set_automation_running_effect e s i b) as [-> | (s1 & H1 & ->)];
      cbn [snd]; [exact Hsame |].
    apply update_automation_running_Return in H1. destruct H1 as [_ ->].
    split.
    + apply (consistent_update_configs s
               (fun r => UserConfigs.Row (UserConfigs.user_id r)
                           (UserConfigs.chat_id r) (UserConfigs.name_prefix r)
                           (UserConfigs.delay r) (UserConfigs.cookies r)
                           (UserConfigs.messages r) (Some (if b then 1 else 0))
                           (UserConfigs.updated_at r)));
        [reflexivity | exact Hs].
    + exists []. rewrite app_nil_r. reflexivity.
  - destruct (get_automation_running_effect e s i) as [x ->]. exact Hsame.
  - destruct (get_username_effect e s i) as [x ->]. exact Hsame.
  - destruct (set_admin_e2ee_thread_id_effect e s i th c k)
      as [-> | (s1 & [(owner & rest & _ & H1) | (_ & H1)] & ->)];
      cbn [snd]; [exact Hsame | |].
    + apply update_thread_Return in H1. destruct H1 as [_ ->].
      split.
      * apply (consistent_update_threads s
                 (fun r => AdminThreads.Row (AdminThreads.user_id r) (Some th) (Some c)
                             (Some k) (clock e)));
          [reflexivity | exact Hs].
      * exists []. rewrite app_nil_r. reflexivity.
    + apply insert_thread_Return in H1. destruct H1 as (_ & Hfree & ->).
      split.
      * apply (consistent_insert_thread s (AdminThreads.Row i (Some th) (Some c) (Some k)
                                                            (clock e)));
          [exact Hfree | exact Hs].
      * exists []. rewrite app_nil_r. reflexivity.
  - destruct (get_admin_e2ee_thread_id_effect e s i) as [x ->]. exact Hsame.
Qed.

Lemma later_consistent s s' :
  later s s' -> consistent s ->
  consistent s' /\ exists extra, user_rows s' = user_rows s ++ extra.
Proof.
  induction 1 as [|s' r e Hl IH]; intros Hs.
  - split; [exact Hs | exists []; rewrite app_nil_r; reflexivity].
  - destruct (IH Hs) as [Hs' [extra Hx]].
    destruct (serve_consistent r e s' Hs') as [Hc [extra' Hx']].
    split; [exact Hc |].
    exists (extra ++ extra'). rewrite Hx', Hx, app_assoc. reflexivity.
Qed.

Lemma later_trans s1 s2 s3 : later s1 s2 -> later s2 s3 -> later s1 s3.
Proof.
  intros H12 H23. induction H23; [exact H12 | constructor; assumption].
Qed.

(** The first import leaves the three tables, empty. *)
Lemma init_db_on_empty_file e :
  fst (call init_db e empty_file) = Return tt ->
  snd (call init_db e empty_file) = Store (Some []) 0 (Some []) (Some []).
Proof.
  apply (wp_call init_db e empty_file
           (fun r w => r = Return tt -> disk w = Store (Some []) 0 (Some []) (Some []))
           (fun x => fst x = Return tt -> snd x = Store (Some []) 0 (Some []) (Some [])));
    [| auto].
  unfold init_db. wp_run; cbn [disk]; first [discriminate | reflexivity].
Qed.

Lemma consistent_fresh : consistent (Store (Some []) 0 (Some []) (Some [])).
Proof.
  split; cbn; try constructor; try tauto.
Qed.

Lemma reachable_consistent s : reachable s -> consistent s.
Proof.
  intros (e & Hok & Hl). rewrite (init_db_on_empty_file e Hok) in Hl.
  apply (later_consistent _ _ Hl consistent_fresh).
Qed.

Lemma reachable_later s s' : reachable s -> later s s' -> reachable s'.
Proof.
  intros (e & Hok & Hl) H. exists e. split; [exact Hok |].
  apply later_trans with s; assumption.
Qed.

(** * The claims *)

Ltac run_call :=
  unfold call, try_except, bind, get_db_connection, execute, execute_select,
    execute_create, commit, close, fault_point, ret;
  cbn.

(** ** Account creation *)


Lemma configs_of_new_user s t u h :
  consistent s ->
  configs_of (SQL.next_id s (user_rows s)) (with_new_user t u h s)
  = [default_config (SQL.next_id s (user_rows s)) t].
Proof.
  intros Hs. unfold configs_of, with_new_user, config_rows at 1. cbn.
  rewrite filter_app, (filter_key_absent UserConfigs.user_id Z.eqb Z.eqb_eq).
  - cbn. rewrite Z.eqb_refl. reflexivity.
  - intros H. apply (cons_config_ids s Hs) in H.
    pose proof (next_id_above_sequence s (user_rows s)). lia.
Qed.

Lemma get_automation_running_row s t i r rest :
  configs_of i s = r :: rest ->
  call (get_automation_running i) (calm t) s
  = (Return (match UserConfigs.automation_running r with
             | Some flag => PyInt flag
             | None => PyNone
             end), s).
Proof.
  unfold configs_of, config_rows. intros H.
  unfold get_automation_running. run_call.
  unfold SQL.select_automation_running.
  destruct (user_configs s) as [rows|]; [| discriminate].
  rewrite H. reflexivity.
Qed.




(** ** Configuration *)


Lemma configs_of_absent i s :
  configs_of i s = [] -> ~ In i (map UserConfigs.user_id (config_rows s)).
Proof.
  unfold configs_of. intros Hnone Hin.
  apply in_map_iff in Hin. destruct Hin as (r & Hkey & Hin).
  assert (H : In r (filter (fun x => UserConfigs.user_id x =? i) (config_rows s))).
  { apply (filter_key_In UserConfigs.user_id Z.eqb Z.eqb_eq). auto. }
  rewrite Hnone in H. exact H.
Qed.



Lemma get_user_config_row s t i r rest :
  configs_of i s = r :: rest ->
  call (get_user_config i) (calm t) s
  = (Return (Some (Config.Dict (UserConfigs.chat_id r) (UserConfigs.name_prefix r)
                               (UserConfigs.delay r) (UserConfigs.cookies r)
                               (UserConfigs.messages r))), s).
Proof.
  unfold configs_of, config_rows. intros H.
  unfold get_user_config. run_call.
  unfold SQL.select_config.
  destruct (user_configs s) as [rows|]; [| discriminate].
  rewrite H. reflexivity.
Qed.

Lemma get_user_config_none s t i :
  configs_of i s = [] ->
  call (get_user_config i) (calm t) s = (Return None, s).
Proof.
  unfold configs_of, config_rows. intros H.
  unfold get_user_config. run_call.
  unfold SQL.select_config.
  destruct (user_configs s) as [rows|]; [| reflexivity].
  rewrite H. reflexivity.
Qed.




(** ** Admin threads *)



Lemma get_admin_e2ee_thread_id_row s t i r rest :
  threads_of i s = r :: rest ->
  call (get_admin_e2ee_thread_id i) (calm t) s = (Return (AdminThreads.thread_id r), s).
Proof.
  unfold threads_of, thread_rows. intros H.
  unfold get_admin_e2ee_thread_id. run_call.
  unfold SQL.select_thread_id.
  destruct (admin_threads s) as [rows|]; [| discriminate].
  rewrite H. reflexivity.
Qed.


(** ** Schema initialisation *)

(** C8.  On a file that already holds the three tables [init_db] returns
    normally and changes nothing; on any file, running it a second time
    changes nothing more, and no row of a table that existed is lost. *)
Theorem init_db_idempotent :
  (forall us q cs ts t,
     call init_db (calm t) (Store (Some us) q (Some cs) (Some ts))
     = (Return tt, Store (Some us) q (Some cs) (Some ts))) /\
  (forall s t1 t2,
     exists s1,
       call init_db (calm t1) s = (Return tt, s1) /\
       call init_db (calm t2) s1 = (Return tt, s1) /\
       schema_complete s1 = true /\
       user_rows s1 = user_rows s /\ config_rows s1 = config_rows s /\
       thread_rows s1 = thread_rows s /\ sqlite_sequence s1 = sqlite_sequence s).
Proof.
  split.
  - intros us q cs ts t. reflexivity.
  - intros [[us|] q [cs|] [ts|]] t1 t2; eexists; repeat split.
Qed.

(** ** Credentials *)

Lemma filter_and_key {R} (name : R -> string) (g : R -> bool) rows u :
  filter (fun x => String.eqb (name x) u && g x) rows
  = filter g (filter (fun x => String.eqb (name x) u) rows).
Proof.
  induction rows as [|r rows IH]; cbn; [reflexivity |].
  destruct (String.eqb (name r) u); cbn; [destruct (g r) |]; rewrite IH; reflexivity.
Qed.

Lemma verify_user_calm s t u p :
  users s = Some (user_rows s) ->
  call (verify_user u p) (calm t) s
  = (Return (hd_error
               (map Users.id
                  (filter (fun r => String.eqb (Users.password_hash r) (SHA256.hexdigest p)
                                    && match Users.is_active r with
                                       | Some a => a =? 1
                                       | None => false
                                       end)
                          (filter (fun r => String.eqb (Users.username r) u)
                                  (user_rows s))))), s).
Proof.
  intros Hu. unfold verify_user. run_call.
  unfold SQL.select_id_by_credentials. rewrite Hu. unfold fetchone.
  rewrite <- filter_and_key.
  do 4 f_equal. apply filter_ext. intros r. rewrite andb_assoc. reflexivity.
Qed.

Lemma verify_user_fault_at_connect s t u p m rest :
  call (verify_user u p) (Env t (Some m :: rest)) s = (Return None, s).
Proof. reflexivity. Qed.

Lemma verify_user_fault_at_select s t u p m rest :
  call (verify_user u p) (Env t (None :: Some m :: rest)) s = (Return None, s).
Proof. reflexivity. Qed.

Lemma verify_user_without_table s e u p :
  users s = None -> call (verify_user u p) e s = (Return None, s).
Proof.
  intros Hu.
  apply (wp_call (verify_user u p) e s
           (fun r w => r = Return None /\ disk w = s)
           (fun x => x = (Return None, s)));
    [| intros r w [-> <-]; reflexivity].
  unfold verify_user. wp_run; cbn [disk]; auto.
  unfold SQL.select_id_by_credentials in *. rewrite Hu in *. discriminate.
Qed.


(** ** Atomicity of account creation *)

Lemma reachable_no_orphan s r :
  reachable s -> In r (user_rows s) -> configs_of (Users.id r) s <> [].
Proof.
  intros Hr Hin Hnone. apply (configs_of_absent _ _ Hnone).
  apply (cons_no_orphan s (reachable_consistent s Hr)).
  apply in_map. exact Hin.
Qed.

(** Where [create_user] stands once it has read back the new id: the file
    is untouched and the new row lives in the connection's transaction. *)
Lemma create_user_before_config e s u p uid w1 :
  (get_db_connection ;;
   execute (fun t => SQL.insert_user t (Some u) (Some (SHA256.hexdigest p))) ;;
   cursor <- execute_select (SQL.select_id_by_username u) ;;
   subscript (fetchone cursor))
    (World s Closed (schedule e) (clock e)) = (Return uid, w1) ->
  exists s1,
    SQL.insert_user (clock e) (Some u) (Some (SHA256.hexdigest p)) s = Return s1 /\
    disk w1 = s /\ conn w1 = InTransaction s1.
Proof.
  intros H.
  match type of H with
  | ?m ?w = _ =>
      assert (Hwp : wp m w (fun r w' =>
                forall i, r = Return i ->
                  exists s1,
                    SQL.insert_user (clock e) (Some u) (Some (SHA256.hexdigest p)) s
                    = Return s1 /\ disk w' = s /\ conn w' = InTransaction s1))
  end.
  { wp_run; try discriminate.
    destruct a as [|j rest]; cbn [fetchone hd_error subscript]; wp_run; try discriminate.
    cbn [disk conn]. eauto. }
  unfold wp in Hwp. rewrite H in Hwp. apply (Hwp uid). reflexivity.
Qed.

(** C3.  The INSERT into [users] and the INSERT into [user_configs] run
    in one transaction that only [commit] makes durable.  If the first
    three driver calls of [create_user] succeed, so that the new user row
    is in the connection's working copy and its id has been read back, and
    the INSERT into [user_configs] then raises, then [create_user] reports
    failure, the file is exactly what it was before the call, and it holds
    no row for that username.  And in every store the module has produced,
    also right after any [create_user], each user row has a configuration
    row. *)
Theorem create_user_atomic e s u p :
  (forall uid w1 x w2,
     (get_db_connection ;;
      execute (fun t => SQL.insert_user t (Some u) (Some (SHA256.hexdigest p))) ;;
      cursor <- execute_select (SQL.select_id_by_username u) ;;
      subscript (fetchone cursor))
       (World s Closed (schedule e) (clock e)) = (Return uid, w1) ->
     execute (fun t => SQL.insert_config t uid (Some "") (Some "[END TO END]") (Some 10)
                         (Some "") (Some default_messages)) w1 = (Raise x, w2) ->
     username_taken u (view (disk w1) (conn w1)) = true /\
     (exists msg, call (create_user u p) e s = (Return (false, msg), s)) /\
     username_taken u s = false) /\
  (reachable s ->
   forall r, In r (user_rows (snd (call (create_user u p) e s))) ->
             configs_of (Users.id r) (snd (call (create_user u p) e s)) <> []).
Proof.
  split.
  - intros uid w1 x w2 Hprefix Hcfg.
    destruct (create_user_before_config e s u p uid w1 Hprefix) as (s1 & Hins & Hdisk & Hconn).
    apply insert_user_Return in Hins. destruct Hins as (_ & Hfree & ->).
    split; [| split; [| exact Hfree]].
    { rewrite Hconn. cbn [view]. apply username_taken_true.
      unfold user_rows at 1. cbn. rewrite map_app, in_app_iff. cbn. auto. }
    destruct (create_user_effect e s u p) as [Hfail | (sa & i & rest & sb & _ & _ & _ & Hok)];
      [exact Hfail | exfalso].
    unfold call, create_user, try_except in Hok.
    unfold bind at 1 2 3 4 in Hok. unfold bind at 1 2 3 in Hprefix.
    destruct (get_db_connection _) as [[[]|e0] wa]; [| discriminate].
    destruct (execute _ wa) as [[[]|e0] wb]; [| discriminate].
    destruct (execute_select _ wb) as [[cursor|e0] wc]; [| discriminate].
    destruct (subscript (fetchone cursor) wc) as [[j|e0] wd]; [| discriminate].
    inversion Hprefix; subst j wd.
    unfold bind at 1 in Hok. rewrite Hcfg in Hok.
    destruct x; cbn in Hok; discriminate.
  - intros Hr r. apply reachable_no_orphan.
    apply (reachable_later s _ Hr).
    exact (later_step s s (Create_user u p) e (later_refl s)).
Qed.

(** * The statements at work on the sample history *)

Lemma sample_store_reachable : reachable sample_store.
Proof.
  exists (calm 0). split; [reflexivity |].
  change (snd (call init_db (calm 0) empty_file)) with fresh_store.
  unfold sample_store.
  apply later_step, later_step, later_refl.
Defined.



Lemma create_user_atomic_witness :
  fst ((get_db_connection ;;
        execute (fun t => SQL.insert_user t (Some "alice") (Some (SHA256.hexdigest "secret"))) ;;
        cursor <- execute_select (SQL.select_id_by_username "alice") ;;
        subscript (fetchone cursor))
         (World sample_store Closed (schedule failing_fourth_call)
                (clock failing_fourth_call))) = Return 2 /\
  call (create_user "alice" "secret") failing_fourth_call sample_store
  = (Return (false, "Error: disk I/O error"), sample_store) /\
  username_taken "alice" sample_store = false.
Proof.
  split; [reflexivity |].
  destruct (proj1 (create_user_atomic failing_fourth_call sample_store "alice" "secret")
              2 _ (OperationalError "disk I/O error") _ eq_refl eq_refl)
    as (_ & _ & Hfree).
  split; [reflexivity | exact Hfree].
Defined.







(** * Further properties of the module *)

(** ** What no environment can make the functions do *)

Lemma create_user_outcomes e s u p :
  (exists msg, call (create_user u p) e s = (Return (false, msg), s)) \/
  (username_taken u s = false /\
   call (create_user u p) e s
   = (Return (true, "Account created successfully!"),
      with_new_user (clock e) u (SHA256.hexdigest p) s)).
Proof.
  destruct (create_user_effect e s u p)
    as [Hfail | (s1 & uid & rest & s2 & H1 & H2 & H3 & Hok)]; [left; exact Hfail |].
  destruct (create_user_commits _ _ _ _ _ _ _ _ H1 H2 H3) as [Hfree ->].
  right. split; assumption.
Qed.

(** X1.  Whatever the environment does, [create_user] returns normally and
    is all or nothing: either it reports failure and the file is what it
    was, or the username was free, it reports success with its fixed
    message, and the file holds the new user row and its configuration
    row. *)
Theorem create_user_all_or_nothing e s u p :
  (exists msg, call (create_user u p) e s = (Return (false, msg), s)) \/
  (username_taken u s = false /\
   call (create_user u p) e s
   = (Return (true, "Account created successfully!"),
      with_new_user (clock e) u (SHA256.hexdigest p) s)).
Proof.
  destruct (create_user_effect e s u p)
    as [Hfail | (s1 & uid & rest & s2 & H1 & H2 & H3 & Hok)]; [left; exact Hfail |].
  destruct (create_user_commits _ _ _ _ _ _ _ _ H1 H2 H3) as [Hfree ->].
  right. split; assumption.
Qed.

(** X2.  The five lookups return normally and leave the file unchanged in
    every environment and on every file. *)
Theorem lookups_never_raise_nor_write e s :
  (forall u p, exists r, call (verify_user u p) e s = (Return r, s)) /\
  (forall i, exists r, call (get_user_config i) e s = (Return r, s)) /\
  (forall i, exists r, call (get_automation_running i) e s = (Return r, s)) /\
  (forall i, exists r, call (get_username i) e s = (Return r, s)) /\
  (forall i, exists r, call (get_admin_e2ee_thread_id i) e s = (Return r, s)).
Proof.
  repeat split; intros.
  - apply verify_user_effect.
  - apply get_user_config_effect.
  - apply get_automation_running_effect.
  - apply get_username_effect.
  - apply get_admin_e2ee_thread_id_effect.
Qed.

(** X3.  The three updating functions return a boolean in every
    environment, and [False] means that nothing was written: the file
    changes only together with the answer [True], and then by exactly the
    one statement of the function. *)
Theorem updates_fail_without_writing e s i :
  (forall c n d k m,
     call (update_user_config i c n d k m) e s = (Return false, s) \/
     exists s1,
       SQL.update_config (clock e) (Some c) (Some n) (Some d) (Some k) (Some m) i s
       = Return s1 /\
       call (update_user_config i c n d k m) e s = (Return true, s1)) /\
  (forall b,
     call (set_automation_running i b) e s = (Return false, s) \/
     exists s1,
       SQL.update_automation_running (Some (if b then 1 else 0)) i s = Return s1 /\
       call (set_automation_running i b) e s = (Return true, s1)) /\
  (forall th c k,
     call (set_admin_e2ee_thread_id i th c k) e s = (Return false, s) \/
     exists s1,
       (threads_of i s <> [] /\
        SQL.update_thread (clock e) (Some th) (Some c) (Some k) i s = Return s1 \/
        threads_of i s = [] /\
        SQL.insert_thread (clock e) i (Some th) (Some c) (Some k) s = Return s1) /\
       call (set_admin_e2ee_thread_id i th c k) e s = (Return true, s1)).
Proof.
  split; [| split].
  - intros. apply update_user_config_effect.
  - intros. apply set_automation_running_effect.
  - intros th c k.
    destruct (set_admin_e2ee_thread_id_effect e s i th c k)
      as [Hfail | (s1 & [(owner & rest & Hsel & Hup) | (Hsel & Hins)] & Hok)];
      [left; exact Hfail | right | right]; exists s1; (split; [| exact Hok]).
    + left. split; [| exact Hup].
      apply select_thread_owner_Return in Hsel. destruct Hsel as [_ Hsel].
      intros Hnone. rewrite Hnone in Hsel. discriminate.
    + right. split; [| exact Hins].
      apply select_thread_owner_Return in Hsel. destruct Hsel as [_ Hsel].
      destruct (threads_of i s); [reflexivity | discriminate].
Qed.

(** X4.  [init_db] has no handler: a fault of the environment leaves it
    as an exception.  But whether it returns or raises, and on a file with
    any subset of the tables, no row and no counter is lost; and when it
    returns, the three tables exist. *)
Theorem init_db_keeps_data e s :
  user_rows (snd (call init_db e s)) = user_rows s /\
  config_rows (snd (call init_db e s)) = config_rows s /\
  thread_rows (snd (call init_db e s)) = thread_rows s /\
  sqlite_sequence (snd (call init_db e s)) = sqlite_sequence s /\
  (fst (call init_db e s) = Return tt -> schema_complete (snd (call init_db e s)) = true) /\
  (forall t m rest,
     call init_db (Env t (Some m :: rest)) s = (Raise (OperationalError m), s)).
Proof.
  assert (H : user_rows (snd (call init_db e s)) = user_rows s /\
              config_rows (snd (call init_db e s)) = config_rows s /\
              thread_rows (snd (call init_db e s)) = thread_rows s /\
              sqlite_sequence (snd (call init_db e s)) = sqlite_sequence s /\
              (fst (call init_db e s) = Return tt ->
               schema_complete (snd (call init_db e s)) = true)).
  { apply (wp_call init_db e s
             (fun r w => user_rows (disk w) = user_rows s /\
                         config_rows (disk w) = config_rows s /\
                         thread_rows (disk w) = thread_rows s /\
                         sqlite_sequence (disk w) = sqlite_sequence s /\
                         (r = Return tt -> schema_complete (disk w) = true))
             (fun x => user_rows (snd x) = user_rows s /\
                       config_rows (snd x) = config_rows s /\
                       thread_rows (snd x) = thread_rows s /\
                       sqlite_sequence (snd x) = sqlite_sequence s /\
                       (fst x = Return tt -> schema_complete (snd x) = true)));
      [| auto].
    destruct s as [[us|] q [cs|] [ts|]];
      unfold init_db; wp_run; cbn [disk]; repeat split; try reflexivity; discriminate. }
  destruct H as (H1 & H2 & H3 & H4 & H5).
  repeat split; assumption || reflexivity.
Qed.

(** X5.  Called on a file that lacks their table, the functions turn the
    driver's "no such table" into their failure value and write nothing:
    [create_user] reports it in its message, the updating functions
    answer [False], the lookups answer [None] or [False]. *)
Theorem calls_without_tables s t :
  (users s = None ->
   forall u p i,
     call (create_user u p) (calm t) s
     = (Return (false, "Error: no such table: users"), s) /\
     call (verify_user u p) (calm t) s = (Return None, s) /\
     call (get_username i) (calm t) s = (Return None, s)) /\
  (user_configs s = None ->
   forall i c n d k m b,
     call (update_user_config i c n d k m) (calm t) s = (Return false, s) /\
     call (set_automation_running i b) (calm t) s = (Return false, s) /\
     call (get_user_config i) (calm t) s = (Return None, s) /\
     call (get_automation_running i) (calm t) s = (Return (PyBool false), s)) /\
  (admin_threads s = None ->
   forall i th c k,
     call (set_admin_e2ee_thread_id i th c k) (calm t) s = (Return false, s) /\
     call (get_admin_e2ee_thread_id i) (calm t) s = (Return None, s)).
Proof.
  split; [| split].
  - intros Hu u p i. repeat split.
    + unfold create_user. run_call. unfold SQL.insert_user. rewrite Hu. reflexivity.
    + unfold verify_user. run_call. unfold SQL.select_id_by_credentials.
      rewrite Hu. reflexivity.
    + unfold get_username. run_call. unfold SQL.select_username.
      rewrite Hu. reflexivity.
  - intros Hc i c n d k m b. repeat split.
    + unfold update_user_config. run_call. unfold SQL.update_config.
      rewrite Hc. reflexivity.
    + unfold set_automation_running. run_call. unfold SQL.update_automation_running.
      rewrite Hc. reflexivity.
    + unfold get_user_config. run_call. unfold SQL.select_config.
      rewrite Hc. reflexivity.
    + unfold get_automation_running. run_call. unfold SQL.select_automation_running.
      rewrite Hc. reflexivity.
  - intros Ht i th c k. repeat split.
    + unfold set_admin_e2ee_thread_id. run_call. unfold SQL.select_thread_owner.
      rewrite Ht. reflexivity.
    + unfold get_admin_e2ee_thread_id. run_call. unfold SQL.select_thread_id.
      rewrite Ht. reflexivity.
Qed.

Lemma calls_without_tables_witness :
  users empty_file = None /\
  user_configs empty_file = None /\
  admin_threads empty_file = None /\
  call (create_user "alice" "secret") (calm 1700000000) empty_file
  = (Return (false, "Error: no such table: users"), empty_file) /\
  call (update_user_config 1 "chat-7" "[BOT]" 25 "" "hi") (calm 1700000000) empty_file
  = (Return false, empty_file) /\
  call (get_admin_e2ee_thread_id 1) (calm 1700000000) empty_file
  = (Return None, empty_file).
Proof.
  destruct (calls_without_tables empty_file 1700000000) as (Hu & Hc & Ht).
  split; [reflexivity |]. split; [reflexivity |]. split; [reflexivity |].
  split; [| split].
  - exact (proj1 (Hu eq_refl "alice" "secret" 1)).
  - exact (proj1 (Hc eq_refl 1 "chat-7" "[BOT]" 25 "" "hi" true)).
  - exact (proj2 (Ht eq_refl 1 "t-100" "" "E2EE")).
Defined.

(** ** Failures of [create_user] and [verify_user] *)

(** X6.  When the store fails at any of the five driver calls of
    [create_user] (connecting, the two INSERTs, reading the id back,
    committing), the function answers [(False, "Error: " + cause)] and the
    file is what it was, whichever call failed. *)
Theorem create_user_reports_store_fault s t u p k m rest :
  reachable s ->
  username_taken u s = false ->
  (k < 5)%nat ->
  call (create_user u p) (Env t (repeat None k ++ Some m :: rest)) s
  = (Return (false, String.append "Error: " m), s).
Proof.
  intros Hr Hfree Hk. pose proof (reachable_consistent s Hr) as Hs.
  destruct (tables_of_complete s (cons_schema s Hs)) as (Hu & Hc & _).
  assert (Hnew : ~ In (SQL.next_id s (user_rows s))
                      (map UserConfigs.user_id (config_rows s))).
  { intros H. apply (cons_config_ids s Hs) in H.
    pose proof (next_id_above_sequence s (user_rows s)). lia. }
  destruct k as [|[|[|[|[|k]]]]]; [| | | | | lia];
    cbn [repeat app]; unfold create_user; run_call; try reflexivity;
    rewrite (insert_user_fresh t u _ s Hu Hfree); cbn; try reflexivity;
    rewrite select_new_user_id by (apply username_taken_false; exact Hfree);
    cbn; try reflexivity.
  erewrite insert_config_fresh; cbn; [reflexivity | |].
  - unfold config_rows. cbn. rewrite Hc. reflexivity.
  - unfold config_rows. cbn. fold (config_rows s). exact Hnew.
Qed.

Lemma create_user_reports_store_fault_witness :
  reachable sample_store /\
  username_taken "alice" sample_store = false /\
  call (create_user "alice" "secret")
       (Env 1700000100 ([None; None; None; None] ++ Some "database is locked" :: []))
       sample_store
  = (Return (false, "Error: database is locked"), sample_store).
Proof.
  split; [exact sample_store_reachable |]. split; [reflexivity |].
  exact (create_user_reports_store_fault sample_store 1700000100 "alice" "secret" 4
           "database is locked" [] sample_store_reachable eq_refl
           (le_n 5)).
Defined.

(** X7.  The handler of [create_user] maps every IntegrityError to the
    duplicate-username message.  On a file that already holds a
    configuration row under the id the new account is about to get (the
    module never writes such a file itself), the username is free, the
    INSERT into [users] succeeds, the INSERT into [user_configs] violates
    the primary key, and the caller is told "Username already exists!";
    nothing is written. *)
Theorem create_user_blames_username_for_config_conflict s t u p :
  users s = Some (user_rows s) ->
  username_taken u s = false ->
  In (SQL.next_id s (user_rows s)) (map UserConfigs.user_id (config_rows s)) ->
  call (create_user u p) (calm t) s = (Return (false, "Username already exists!"), s).
Proof.
  intros Hu Hfree Hstray.
  unfold create_user. run_call.
  rewrite (insert_user_fresh t u _ s Hu Hfree). cbn.
  rewrite select_new_user_id by (apply username_taken_false; exact Hfree). cbn.
  match goal with
  | |- context [SQL.insert_config ?a ?b ?c ?d ?e ?f ?g ?h] =>
      destruct (insert_config_taken a b c d e f g h) as [msg ->]
  end.
  - unfold config_rows. cbn. fold (config_rows s). exact Hstray.
  - reflexivity.
Qed.

Lemma create_user_blames_username_for_config_conflict_witness :
  username_taken "alice" store_with_stray_config = false /\
  call (create_user "alice" "secret") (calm 1700000100) store_with_stray_config
  = (Return (false, "Username already exists!"), store_with_stray_config).
Proof.
  split; [reflexivity |].
  exact (create_user_blames_username_for_config_conflict store_with_stray_config
           1700000100 "alice" "secret" eq_refl eq_refl (or_introl eq_refl)).
Defined.

(** X8.  The query of [verify_user] asks for [is_active = 1]: for an
    account whose row carries another value (or NULL) in that column,
    [verify_user] answers [None] for every password, the right one
    included.  No function of the module writes that column after the
    INSERT. *)
Theorem verify_user_rejects_inactive_account s t r :
  users s = Some (user_rows s) ->
  NoDup (map Users.username (user_rows s)) ->
  In r (user_rows s) ->
  Users.is_active r <> Some 1 ->
  forall p, call (verify_user (Users.username r) p) (calm t) s = (Return None, s).
Proof.
  intros Hu Hnd Hin Hoff p.
  rewrite verify_user_calm by exact Hu.
  rewrite (filter_key_unique Users.username String.eqb String.eqb_eq _ r Hnd Hin).
  cbn. destruct (Users.is_active r) as [a|]; [| rewrite andb_false_r; reflexivity].
  destruct (Z.eqb_spec a 1) as [-> | Hne]; [congruence |].
  rewrite andb_false_r. reflexivity.
Qed.

Lemma verify_user_rejects_inactive_account_witness :
  user_rows store_with_inactive_user
  = [Users.Row 1 "bob" (SHA256.hexdigest "hunter2") 1700000000 (Some 0)] /\
  call (verify_user "bob" "hunter2") (calm 1700000100) store_with_inactive_user
  = (Return None, store_with_inactive_user).
Proof.
  split; [reflexivity |].
  refine (verify_user_rejects_inactive_account store_with_inactive_user 1700000100
            (Users.Row 1 "bob" (SHA256.hexdigest "hunter2") 1700000000 (Some 0))
            eq_refl _ (or_introl eq_refl) _ "hunter2").
  - repeat constructor. intros [].
  - discriminate.
Defined.

(** ** Numbering of accounts *)

Lemma max_id_le rows b :
  0 <= b -> (forall i, In i (map Users.id rows) -> i <= b) -> SQL.max_id rows <= b.
Proof.
  intros Hb. induction rows as [|r rows IH]; intros H; [cbn; exact Hb |].
  change (SQL.max_id (r :: rows)) with (Z.max (Users.id r) (SQL.max_id rows)).
  apply Z.max_lub.
  - apply H. left. reflexivity.
  - apply IH. intros i Hi. apply H. right. exact Hi.
Qed.

Lemma next_id_orderly s :
  orderly s -> SQL.next_id s (user_rows s) = Z.of_nat (S (List.length (user_rows s))).
Proof.
  intros Ho. unfold SQL.next_id. rewrite (ord_sequence s Ho).
  assert (H : SQL.max_id (user_rows s) <= Z.of_nat (List.length (user_rows s))).
  { apply max_id_le; [lia |]. intros i Hi. rewrite (ord_ids s Ho) in Hi.
    apply in_map_iff in Hi. destruct Hi as (n & <- & Hn). apply in_seq in Hn. lia. }
  lia.
Qed.

Lemma orderly_with_new_user t u h s :
  orderly s -> orderly (with_new_user t u h s).
Proof.
  intros Ho. pose proof (next_id_orderly s Ho) as Hnext.
  destruct Ho as [Hids Hseq Hcfg Hact Hfil Hthr].
  unfold with_new_user. split; unfold user_rows at 1, config_rows at 1; cbn.
  - rewrite map_app, length_app, Hids, Hnext. cbn [List.length map].
    rewrite Nat.add_1_r, seq_S, map_app. reflexivity.
  - rewrite length_app, Hnext. cbn [List.length]. rewrite Nat.add_1_r. reflexivity.
  - unfold user_rows at 1. cbn. rewrite !map_app, Hcfg. reflexivity.
  - apply Forall_app. split; [exact Hact | repeat constructor].
  - apply Forall_app. split; [exact Hfil |]. repeat constructor.
    exists "", "[END TO END]", 10, "", default_messages, false. reflexivity.
  - unfold thread_rows in *. cbn. exact Hthr.
Qed.

Lemma orderly_update_configs s f i :
  (forall r, UserConfigs.user_id (f r) = UserConfigs.user_id r) ->
  (forall r, filled r -> filled (f r)) ->
  orderly s ->
  orderly (Store (users s) (sqlite_sequence s)
                 (Some (map (fun r => if UserConfigs.user_id r =? i then f r else r)
                            (config_rows s)))
                 (admin_threads s)).
Proof.
  intros Hkey Hfill [Hids Hseq Hcfg Hact Hfil Hthr].
  pose proof (update_keys UserConfigs.user_id Z.eqb f Hkey (config_rows s) i) as Hkeys.
  split; unfold user_rows, config_rows, thread_rows in *; cbn; try assumption.
  - rewrite Hkeys. exact Hcfg.
  - apply Forall_map. revert Hfil. apply Forall_impl. intros r Hr.
    destruct (UserConfigs.user_id r =? i); auto.
Qed.

Lemma orderly_threads s rows :
  Forall (fun r => AdminThreads.thread_id r <> None) rows ->
  orderly s ->
  orderly (Store (users s) (sqlite_sequence s) (user_configs s) (Some rows)).
Proof.
  intros Hrows [Hids Hseq Hcfg Hact Hfil Hthr].
  split; unfold user_rows, config_rows, thread_rows in *; cbn; assumption.
Qed.

Lemma serve_orderly r e s : consistent s -> orderly s -> orderly (serve r e s).
Proof.
  intros Hs Ho.
  destruct r as [|u p|u p|i|i c n d k m|i b|i|i|i th c k|i]; cbn [serve].
  - rewrite init_db_effect by apply Hs. exact Ho.
  - destruct (create_user_outcomes e s u p) as [[msg ->] | [_ ->]]; cbn [snd];
      [exact Ho | apply orderly_with_new_user; exact Ho].
  - destruct (verify_user_effect e s u p) as [x ->]. exact Ho.
  - destruct (get_user_config_effect e s i) as [x ->]. exact Ho.
  - destruct (update_user_config_effect e s i c n d k m) as [-> | (s1 & H1 & ->)];
      cbn [snd]; [exact Ho |].
    apply update_config_Return in H1. destruct H1 as [_ ->].
    apply (orderly_update_configs s
             (fun r => UserConfigs.Row (UserConfigs.user_id r) (Some c) (Some n) (Some d)
                         (Some k) (Some m) (UserConfigs.automation_running r) (clock e)));
      [reflexivity | | exact Ho].
    intros r (c0 & n0 & d0 & k0 & m0 & b0 & Hr). rewrite Hr. cbn.
    exists c, n, d, k, m, b0. reflexivity.
  - destruct (set_automation_running_effect e s i b) as [-> | (s1 & H1 & ->)];
      cbn [snd]; [exact Ho |].
    apply update_automation_running_Return in H1. destruct H1 as [_ ->].
    apply (orderly_update_configs s
             (fun r => UserConfigs.Row (UserConfigs.user_id r)
                         (UserConfigs.chat_id r) (UserConfigs.name_prefix r)
                         (UserConfigs.delay r) (UserConfigs.cookies r)
                         (UserConfigs.messages r) (Some (if b then 1 else 0))
                         (UserConfigs.updated_at r)));
      [reflexivity | | exact Ho].
    intros r (c0 & n0 & d0 & k0 & m0 & b0 & Hr). rewrite Hr. cbn.
    exists c0, n0, d0, k0, m0, b. reflexivity.
  - destruct (get_automation_running_effect e s i) as [x ->]. exact Ho.
  - destruct (get_username_effect e s i) as [x ->]. exact Ho.
  - destruct (set_admin_e2ee_thread_id_effect e s i th c k)
      as [-> | (s1 & [(owner & rest & _ & H1) | (_ & H1)] & ->)];
      cbn [snd]; [exact Ho | |].
    + apply update_thread_Return in H1. destruct H1 as [_ ->].
      apply orderly_threads; [| exact Ho].
      apply Forall_map. generalize (ord_threads s Ho). apply Forall_impl.
      intros r Hr. destruct (AdminThreads.user_id r =? i); [discriminate | exact Hr].
    + apply insert_thread_Return in H1. destruct H1 as (_ & _ & ->).
      apply orderly_threads; [| exact Ho].
      apply Forall_app. split; [apply Ho | repeat constructor; discriminate].
  - destruct (get_admin_e2ee_thread_id_effect e s i) as [x ->]. exact Ho.
Qed.

Lemma reachable_orderly s : reachable s -> orderly s.
Proof.
  intros (e & Hok & Hl). rewrite (init_db_on_empty_file e Hok) in Hl.
  assert (H : consistent s /\ orderly s).
  { induction Hl as [|s' r e' Hl IH].
    - split; [exact consistent_fresh |]. split; cbn; constructor.
    - destruct IH as [Hs Ho]. split.
      + apply serve_consistent. exact Hs.
      + apply serve_orderly; assumption. }
  apply H.
Qed.

(** X9.  In every store the module has produced, the accounts carry the
    ids 1, 2, 3, ... in the order of their creation, so failed attempts
    use up no id and no id is ever reused; the AUTOINCREMENT counter is the
    number of accounts; and the configuration rows carry exactly the ids of
    the accounts, in the same order: one row per account. *)
Theorem accounts_are_numbered_in_order s :
  reachable s ->
  map Users.id (user_rows s) = map Z.of_nat (seq 1 (List.length (user_rows s))) /\
  sqlite_sequence s = Z.of_nat (List.length (user_rows s)) /\
  map UserConfigs.user_id (config_rows s) = map Users.id (user_rows s).
Proof.
  intros Hr. pose proof (reachable_orderly s Hr) as Ho.
  split; [apply Ho |]. split; apply Ho.
Qed.

Lemma accounts_are_numbered_in_order_witness :
  reachable sample_store_with_alice /\
  map Users.id (user_rows sample_store_with_alice) = [1; 2] /\
  sqlite_sequence sample_store_with_alice = 2 /\
  map UserConfigs.user_id (config_rows sample_store_with_alice) = [1; 2].
Proof.
  assert (Hr : reachable sample_store_with_alice).
  { apply (reachable_later sample_store _ sample_store_reachable).
    apply later_step, later_refl. }
  split; [exact Hr |].
  destruct (accounts_are_numbered_in_order sample_store_with_alice Hr) as (H1 & H2 & H3).
  split; [exact H1 |]. split; [exact H2 | exact H3].
Defined.

(** ** Names and identifiers *)

Lemma NoDup_numbers a n : NoDup (map Z.of_nat (seq a n)).
Proof.
  revert a. induction n as [|n IH]; intros a; cbn; constructor.
  - rewrite in_map_iff. intros (k & Hk & Hin). apply in_seq in Hin. lia.
  - apply IH.
Qed.

Lemma orderly_ids_NoDup s : orderly s -> NoDup (map Users.id (user_rows s)).
Proof. intros Ho. rewrite (ord_ids s Ho). apply NoDup_numbers. Qed.

Lemma get_username_calm s t i :
  users s = Some (user_rows s) ->
  call (get_username i) (calm t) s
  = (Return (hd_error (map Users.username (users_with_id i s))), s).
Proof.
  intros Hu. unfold get_username. run_call.
  unfold SQL.select_username. rewrite Hu. reflexivity.
Qed.

(** What a successful [verify_user] has found. *)
Lemma verify_user_Some s t u p i :
  users s = Some (user_rows s) ->
  fst (call (verify_user u p) (calm t) s) = Return (Some i) ->
  exists r,
    In r (user_rows s) /\ Users.username r = u /\ Users.id r = i /\
    Users.password_hash r = SHA256.hexdigest p /\ Users.is_active r = Some 1.
Proof.
  intros Hu. rewrite verify_user_calm by exact Hu. cbn [fst]. intros H.
  inversion H as [H']. clear H.
  destruct (filter _ (filter _ (user_rows s))) as [|r rest] eqn:E; [discriminate |].
  cbn in H'. inversion H'. subst i.
  assert (Hr : In r (filter (fun r => String.eqb (Users.password_hash r) (SHA256.hexdigest p)
                                      && match Users.is_active r with
                                         | Some a => a =? 1
                                         | None => false
                                         end)
                            (filter (fun r => String.eqb (Users.username r) u)
                                    (user_rows s)))).
  { rewrite E. left. reflexivity. }
  apply filter_In in Hr. destruct Hr as [Hr Hg].
  apply filter_In in Hr. destruct Hr as [Hin Hname].
  apply andb_true_iff in Hg. destruct Hg as [Hhash Hact].
  exists r. repeat split; auto.
  - apply String.eqb_eq. exact Hname.
  - apply String.eqb_eq. exact Hhash.
  - destruct (Users.is_active r) as [a|]; [| discriminate].
    apply Z.eqb_eq in Hact. congruence.
Qed.

Lemma verify_user_row s t r p :
  users s = Some (user_rows s) ->
  NoDup (map Users.username (user_rows s)) ->
  In r (user_rows s) ->
  Users.password_hash r = SHA256.hexdigest p ->
  Users.is_active r = Some 1 ->
  call (verify_user (Users.username r) p) (calm t) s = (Return (Some (Users.id r)), s).
Proof.
  intros Hu Hnd Hin Hhash Hact.
  rewrite verify_user_calm by exact Hu.
  rewrite (filter_key_unique Users.username String.eqb String.eqb_eq _ r Hnd Hin).
  cbn. rewrite Hhash, String.eqb_refl, Hact. reflexivity.
Qed.

Lemma get_username_row s t r :
  users s = Some (user_rows s) ->
  NoDup (map Users.id (user_rows s)) ->
  In r (user_rows s) ->
  call (get_username (Users.id r)) (calm t) s = (Return (Some (Users.username r)), s).
Proof.
  intros Hu Hnd Hin. rewrite get_username_calm by exact Hu.
  unfold users_with_id.
  rewrite (filter_key_unique Users.id Z.eqb Z.eqb_eq _ r Hnd Hin). reflexivity.
Qed.

(** X10.  In a store the module has produced, the identifier that
    [verify_user] returns for a username is one that [get_username] maps
    back to that username. *)
Theorem get_username_inverts_verify_user s t u p i :
  reachable s ->
  fst (call (verify_user u p) (calm t) s) = Return (Some i) ->
  forall t', call (get_username i) (calm t') s = (Return (Some u), s).
Proof.
  intros Hr Hv t'.
  pose proof (reachable_consistent s Hr) as Hs.
  destruct (tables_of_complete s (cons_schema s Hs)) as (Hu & _ & _).
  destruct (verify_user_Some s t u p i Hu Hv) as (r & Hin & <- & <- & _).
  apply get_username_row; [exact Hu | | exact Hin].
  apply orderly_ids_NoDup, reachable_orderly, Hr.
Qed.

Lemma get_username_inverts_verify_user_witness :
  reachable sample_store /\
  fst (call (verify_user "bob" "hunter2") (calm 1700000100) sample_store)
  = Return (Some 1) /\
  call (get_username 1) (calm 1700000200) sample_store = (Return (Some "bob"), sample_store).
Proof.
  split; [exact sample_store_reachable |].
  assert (Hv : fst (call (verify_user "bob" "hunter2") (calm 1700000100) sample_store)
               = Return (Some 1)) by (vm_compute; reflexivity).
  split; [exact Hv |].
  exact (get_username_inverts_verify_user sample_store 1700000100 "bob" "hunter2" 1
           sample_store_reachable Hv 1700000200).
Defined.

(** X11.  Accounts are permanent.  No function updates or deletes a row
    of [users]: once [verify_user] accepts a username and password, it
    accepts them with the same identifier in every later store, and
    [get_username] keeps mapping that identifier to the username. *)
Theorem accepted_credentials_stay_accepted s t u p i s' :
  reachable s ->
  fst (call (verify_user u p) (calm t) s) = Return (Some i) ->
  later s s' ->
  (exists extra, user_rows s' = user_rows s ++ extra) /\
  (forall t', call (verify_user u p) (calm t') s' = (Return (Some i), s')) /\
  (forall t', call (get_username i) (calm t') s' = (Return (Some u), s')).
Proof.
  intros Hr Hv Hl.
  pose proof (reachable_consistent s Hr) as Hs.
  destruct (tables_of_complete s (cons_schema s Hs)) as (Hu & _ & _).
  destruct (verify_user_Some s t u p i Hu Hv) as (r & Hin & <- & <- & Hhash & Hact).
  destruct (later_consistent s s' Hl Hs) as [Hs' [extra Hrows]].
  destruct (tables_of_complete s' (cons_schema s' Hs')) as (Hu' & _ & _).
  assert (Hin' : In r (user_rows s')) by (rewrite Hrows, in_app_iff; auto).
  split; [exists extra; exact Hrows |]. split; intros t'.
  - apply verify_user_row; auto. apply Hs'.
  - apply get_username_row; auto.
    apply orderly_ids_NoDup, reachable_orderly. apply (reachable_later s s' Hr Hl).
Qed.

Lemma accepted_credentials_stay_accepted_witness :
  reachable sample_store /\
  fst (call (verify_user "bob" "hunter2") (calm 1700000100) sample_store)
  = Return (Some 1) /\
  later sample_store sample_store_with_alice /\
  call (verify_user "bob" "hunter2") (calm 1700000200) sample_store_with_alice
  = (Return (Some 1), sample_store_with_alice) /\
  call (get_username 1) (calm 1700000200) sample_store_with_alice
  = (Return (Some "bob"), sample_store_with_alice).
Proof.
  assert (Hv : fst (call (verify_user "bob" "hunter2") (calm 1700000100) sample_store)
               = Return (Some 1)) by (vm_compute; reflexivity).
  assert (Hl : later sample_store sample_store_with_alice)
    by (apply later_step, later_refl).
  split; [exact sample_store_reachable |]. split; [exact Hv |]. split; [exact Hl |].
  destruct (accepted_credentials_stay_accepted sample_store 1700000100 "bob" "hunter2" 1
              sample_store_with_alice sample_store_reachable Hv Hl) as (_ & H1 & H2).
  split; [exact (H1 1700000200) | exact (H2 1700000200)].
Defined.

(** X12.  Right after a successful [create_user], whatever the
    environment was, the new identifier reads back as a complete account:
    [get_username] returns the username, [get_user_config] the default
    dictionary, [get_automation_running] the integer 0. *)
Theorem new_account_reads_back s e u p msg s1 :
  reachable s ->
  call (create_user u p) e s = (Return (true, msg), s1) ->
  forall t,
    call (get_username (SQL.next_id s (user_rows s))) (calm t) s1 = (Return (Some u), s1) /\
    call (get_user_config (SQL.next_id s (user_rows s))) (calm t) s1
    = (Return (Some default_dict), s1) /\
    call (get_automation_running (SQL.next_id s (user_rows s))) (calm t) s1
    = (Return (PyInt 0), s1).
Proof.
  intros Hr Hcall t. pose proof (reachable_consistent s Hr) as Hs.
  assert (Hr1 : reachable s1).
  { apply (reachable_later s _ Hr).
    replace s1 with (serve (Create_user u p) e s)
      by (cbn [serve]; rewrite Hcall; reflexivity).
    apply later_step, later_refl. }
  destruct (create_user_outcomes e s u p) as [[msg' H] | [Hfree H]];
    rewrite H in Hcall; [discriminate |].
  inversion Hcall; subst msg s1. clear Hcall H.
  pose proof (reachable_consistent _ Hr1) as Hs1.
  destruct (tables_of_complete _ (cons_schema _ Hs1)) as (Hu1 & _ & _).
  pose proof (configs_of_new_user s (clock e) u (SHA256.hexdigest p) Hs) as Hcfg.
  split; [| split].
  - apply (get_username_row _ t
             (Users.Row (SQL.next_id s (user_rows s)) u (SHA256.hexdigest p)
                        (clock e) (Some 1))).
    + exact Hu1.
    + apply orderly_ids_NoDup, reachable_orderly, Hr1.
    + unfold with_new_user, user_rows at 1. cbn. rewrite in_app_iff. cbn. auto.
  - rewrite (get_user_config_row _ t _ _ [] Hcfg). reflexivity.
  - rewrite (get_automation_running_row _ t _ _ [] Hcfg). reflexivity.
Qed.

Lemma new_account_reads_back_witness :
  reachable sample_store /\
  call (create_user "alice" "secret") (calm 1700000100) sample_store
  = (Return (true, "Account created successfully!"), sample_store_with_alice) /\
  call (get_username 2) (calm 1700000200) sample_store_with_alice
  = (Return (Some "alice"), sample_store_with_alice) /\
  call (get_user_config 2) (calm 1700000200) sample_store_with_alice
  = (Return (Some default_dict), sample_store_with_alice).
Proof.
  split; [exact sample_store_reachable |]. split; [reflexivity |].
  destruct (new_account_reads_back sample_store (calm 1700000100) "alice" "secret"
              "Account created successfully!" sample_store_with_alice
              sample_store_reachable eq_refl 1700000200) as (H1 & H2 & _).
  split; [exact H1 | exact H2].
Defined.

(** X13.  For an identifier that no account carries [get_username]
    returns [None], and for one without a row in [admin_threads]
    [get_admin_e2ee_thread_id] returns [None], in every environment. *)
Theorem unknown_identifier_reads_none s i :
  (users_with_id i s = [] ->
   forall e, call (get_username i) e s = (Return None, s)) /\
  (threads_of i s = [] ->
   forall e, call (get_admin_e2ee_thread_id i) e s = (Return None, s)).
Proof.
  split; intros Hnone e.
  - apply (wp_call (get_username i) e s
             (fun r w => r = Return None /\ disk w = s)
             (fun x => x = (Return None, s)));
      [| intros r w [-> <-]; reflexivity].
    unfold get_username. wp_run; cbn [disk]; auto.
    unfold SQL.select_username in *.
    unfold users_with_id, user_rows in Hnone.
    destruct (users s) as [rows|]; [| discriminate].
    match goal with H : Return _ = Return _ |- _ => inversion H; subst end.
    rewrite Hnone. cbn. auto.
  - apply (wp_call (get_admin_e2ee_thread_id i) e s
             (fun r w => r = Return None /\ disk w = s)
             (fun x => x = (Return None, s)));
      [| intros r w [-> <-]; reflexivity].
    unfold get_admin_e2ee_thread_id. wp_run; cbn [disk]; auto.
    unfold SQL.select_thread_id in *.
    unfold threads_of, thread_rows in Hnone.
    destruct (admin_threads s) as [rows|]; [| discriminate].
    match goal with H : Return _ = Return _ |- _ => inversion H; subst end.
    rewrite Hnone. cbn. auto.
Qed.

Lemma unknown_identifier_reads_none_witness :
  users_with_id 7 sample_store = [] /\
  threads_of 7 sample_store = [] /\
  call (get_username 7) failing_fourth_call sample_store = (Return None, sample_store) /\
  call (get_admin_e2ee_thread_id 7) (calm 1700000100) sample_store
  = (Return None, sample_store).
Proof.
  split; [reflexivity |]. split; [reflexivity |].
  destruct (unknown_identifier_reads_none sample_store 7) as [H1 H2].
  split; [exact (H1 eq_refl failing_fourth_call) | exact (H2 eq_refl (calm 1700000100))].
Defined.

(** ** What an update leaves alone *)

Section Frames.
Context {R K : Type} (key : R -> K) (eqb : K -> K -> bool).
Hypothesis eqb_eq : forall a b, eqb a b = true <-> a = b.
Variable f : R -> R.
Hypothesis f_key : forall r, key (f r) = key r.

Lemma filter_update_commute rows i j :
  filter (fun r => eqb (key r) j) (map (fun r => if eqb (key r) i then f r else r) rows)
  = map (fun r => if eqb (key r) i then f r else r) (filter (fun r => eqb (key r) j) rows).
Proof.
  induction rows as [|r rows IH]; cbn; [reflexivity |].
  replace (eqb (key (if eqb (key r) i then f r else r)) j) with (eqb (key r) j)
    by (destruct (eqb (key r) i); [rewrite f_key |]; reflexivity).
  destruct (eqb (key r) j); cbn; rewrite IH; reflexivity.
Qed.

Lemma filter_update_other rows i j :
  i <> j ->
  filter (fun r => eqb (key r) j) (map (fun r => if eqb (key r) i then f r else r) rows)
  = filter (fun r => eqb (key r) j) rows.
Proof.
  intros Hij. rewrite filter_update_commute.
  rewrite <- (map_id (filter (fun r => eqb (key r) j) rows)) at 2.
  apply map_ext_in. intros r Hr.
  apply (filter_key_In key eqb eqb_eq) in Hr. destruct Hr as [_ Hr].
  destruct (eqb (key r) i) eqn:E; [| reflexivity].
  apply eqb_eq in E. congruence.
Qed.

End Frames.

Lemma get_user_config_calm s t i :
  call (get_user_config i) (calm t) s
  = (Return (match configs_of i s with
             | r :: _ => Some (Config.Dict (UserConfigs.chat_id r)
                                 (UserConfigs.name_prefix r) (UserConfigs.delay r)
                                 (UserConfigs.cookies r) (UserConfigs.messages r))
             | [] => None
             end), s).
Proof.
  destruct (configs_of i s) as [|r rest] eqn:E.
  - apply get_user_config_none. exact E.
  - apply (get_user_config_row s t i r rest E).
Qed.

Lemma get_automation_running_calm s t i :
  call (get_automation_running i) (calm t) s
  = (Return (match configs_of i s with
             | r :: _ => match UserConfigs.automation_running r with
                         | Some flag => PyInt flag
                         | None => PyNone
                         end
             | [] => PyBool false
             end), s).
Proof.
  destruct (configs_of i s) as [|r rest] eqn:E.
    unfold configs_of, config_rows in E.
    unfold get_automation_running. run_call. unfold SQL.select_automation_running.
    destruct (user_configs s) as [rows|]; [| reflexivity].
    rewrite E. reflexivity.
  - apply (get_automation_running_row s t i r rest E).
Qed.

Lemma get_admin_e2ee_thread_id_calm s t i :
  call (get_admin_e2ee_thread_id i) (calm t) s
  = (Return (match threads_of i s with
             | r :: _ => AdminThreads.thread_id r
             | [] => None
             end), s).
Proof.
  destruct (threads_of i s) as [|r rest] eqn:E.
  - unfold threads_of, thread_rows in E.
    unfold get_admin_e2ee_thread_id. run_call. unfold SQL.select_thread_id.
    destruct (admin_threads s) as [rows|]; [| reflexivity].
    rewrite E. reflexivity.
  - apply (get_admin_e2ee_thread_id_row s t i r rest E).
Qed.

(** The configuration rows after the two UPDATE statements, and the
    thread rows after an upsert, whatever the environment. *)
Lemma update_user_config_rows e s i c n d k m :
  serve (Update_user_config i c n d k m) e s = s \/
  serve (Update_user_config i c n d k m) e s
  = Store (users s) (sqlite_sequence s)
          (Some (map (fun r =>
                        if UserConfigs.user_id r =? i
                        then UserConfigs.Row (UserConfigs.user_id r) (Some c) (Some n)
                               (Some d) (Some k) (Some m)
                               (UserConfigs.automation_running r) (clock e)
                        else r) (config_rows s)))
          (admin_threads s).
Proof.
  cbn [serve].
  destruct (update_user_config_effect e s i c n d k m) as [-> | (s1 & H1 & ->)];
    cbn [snd]; [left; reflexivity | right].
  apply update_config_Return in H1. apply H1.
Qed.

Lemma set_automation_running_rows e s i b :
  serve (Set_automation_running i b) e s = s \/
  serve (Set_automation_running i b) e s
  = Store (users s) (sqlite_sequence s)
          (Some (map (fun r =>
                        if UserConfigs.user_id r =? i
                        then UserConfigs.Row (UserConfigs.user_id r)
                               (UserConfigs.chat_id r) (UserConfigs.name_prefix r)
                               (UserConfigs.delay r) (UserConfigs.cookies r)
                               (UserConfigs.messages r) (Some (if b then 1 else 0))
                               (UserConfigs.updated_at r)
                        else r) (config_rows s)))
          (admin_threads s).
Proof.
  cbn [serve].
  destruct (set_automation_running_effect e s i b) as [-> | (s1 & H1 & ->)];
    cbn [snd]; [left; reflexivity | right].
  apply update_automation_running_Return in H1. apply H1.
Qed.

Lemma set_admin_e2ee_thread_id_rows e s i th c k :
  serve (Set_admin_e2ee_thread_id i th c k) e s = s \/
  serve (Set_admin_e2ee_thread_id i th c k) e s
  = Store (users s) (sqlite_sequence s) (user_configs s)
          (Some (map (fun r =>
                        if AdminThreads.user_id r =? i
                        then AdminThreads.Row (AdminThreads.user_id r) (Some th) (Some c)
                               (Some k) (clock e)
                        else r) (thread_rows s))) \/
  serve (Set_admin_e2ee_thread_id i th c k) e s
  = Store (users s) (sqlite_sequence s) (user_configs s)
          (Some (thread_rows s ++
                 [AdminThreads.Row i (Some th) (Some c) (Some k) (clock e)])).
Proof.
  cbn [serve].
  destruct (set_admin_e2ee_thread_id_effect e s i th c k)
    as [-> | (s1 & [(owner & rest & _ & H1) | (_ & H1)] & ->)];
    cbn [snd]; [left; reflexivity | right; left | right; right].
  - apply update_thread_Return in H1. apply H1.
  - apply insert_thread_Return in H1. apply H1.
Qed.

(** X14.  The flag and the five fields do not disturb each other:
    [set_automation_running], for any user and in any environment, leaves
    what [get_user_config] returns for every user as it was, and
    [update_user_config] leaves what [get_automation_running] returns for
    every user as it was. *)
Theorem flag_and_fields_are_independent e s i :
  (forall b j t,
     fst (call (get_user_config j) (calm t) (serve (Set_automation_running i b) e s))
     = fst (call (get_user_config j) (calm t) s)) /\
  (forall c n d k m j t,
     fst (call (get_automation_running j) (calm t)
               (serve (Update_user_config i c n d k m) e s))
     = fst (call (get_automation_running j) (calm t) s)).
Proof.
  split.
  - intros b j t.
    destruct (set_automation_running_rows e s i b) as [-> | ->]; [reflexivity |].
    rewrite !get_user_config_calm. cbn [fst]. f_equal.
    unfold configs_of, config_rows at 1. cbn.
    rewrite (filter_update_commute UserConfigs.user_id Z.eqb
               (fun r => UserConfigs.Row (UserConfigs.user_id r)
                           (UserConfigs.chat_id r) (UserConfigs.name_prefix r)
                           (UserConfigs.delay r) (UserConfigs.cookies r)
                           (UserConfigs.messages r) (Some (if b then 1 else 0))
                           (UserConfigs.updated_at r))) by reflexivity.
    destruct (filter _ (config_rows s)) as [|r rest]; [reflexivity |].
    cbn. destruct (UserConfigs.user_id r =? i); reflexivity.
  - intros c n d k m j t.
    destruct (update_user_config_rows e s i c n d k m) as [-> | ->]; [reflexivity |].
    rewrite !get_automation_running_calm. cbn [fst]. f_equal.
    unfold configs_of, config_rows at 1. cbn.
    rewrite (filter_update_commute UserConfigs.user_id Z.eqb
               (fun r => UserConfigs.Row (UserConfigs.user_id r) (Some c) (Some n) (Some d)
                           (Some k) (Some m) (UserConfigs.automation_running r) (clock e)))
      by reflexivity.
    destruct (filter _ (config_rows s)) as [|r rest]; [reflexivity |].
    cbn. destruct (UserConfigs.user_id r =? i); reflexivity.
Qed.

(** X15.  An update for one user changes nothing that the lookups return
    for another: not the configuration, not the flag, not the admin
    thread, in any environment. *)
Theorem updates_touch_one_user e s i j :
  i <> j ->
  (forall c n d k m t,
     fst (call (get_user_config j) (calm t) (serve (Update_user_config i c n d k m) e s))
     = fst (call (get_user_config j) (calm t) s)) /\
  (forall b t,
     fst (call (get_automation_running j) (calm t) (serve (Set_automation_running i b) e s))
     = fst (call (get_automation_running j) (calm t) s)) /\
  (forall th c k t,
     fst (call (get_admin_e2ee_thread_id j) (calm t)
               (serve (Set_admin_e2ee_thread_id i th c k) e s))
     = fst (call (get_admin_e2ee_thread_id j) (calm t) s)).
Proof.
  intros Hij. split; [| split].
  - intros c n d k m t.
    destruct (update_user_config_rows e s i c n d k m) as [-> | ->]; [reflexivity |].
    rewrite !get_user_config_calm. cbn [fst]. f_equal.
    unfold configs_of, config_rows at 1. cbn.
    rewrite (filter_update_other UserConfigs.user_id Z.eqb Z.eqb_eq) by auto.
    reflexivity.
  - intros b t.
    destruct (set_automation_running_rows e s i b) as [-> | ->]; [reflexivity |].
    rewrite !get_automation_running_calm. cbn [fst]. f_equal.
    unfold configs_of, config_rows at 1. cbn.
    rewrite (filter_update_other UserConfigs.user_id Z.eqb Z.eqb_eq) by auto.
    reflexivity.
  - intros th c k t.
    destruct (set_admin_e2ee_thread_id_rows e s i th c k) as [-> | [-> | ->]];
      [reflexivity | |];
      rewrite !get_admin_e2ee_thread_id_calm; cbn [fst]; f_equal;
      unfold threads_of, thread_rows at 1; cbn.
    + rewrite (filter_update_other AdminThreads.user_id Z.eqb Z.eqb_eq) by auto.
      reflexivity.
    + rewrite filter_app. cbn.
      replace (i =? j) with false by (symmetry; apply Z.eqb_neq; exact Hij).
      rewrite app_nil_r. reflexivity.
Qed.

Lemma updates_touch_one_user_witness :
  2 <> 1 /\
  fst (call (get_user_config 1) (calm 1700000300)
            (serve (Update_user_config 2 "chat-7" "[BOT]" 25 "" "hi") (calm 1700000200)
                   sample_store_with_alice))
  = Return (Some default_dict) /\
  fst (call (get_admin_e2ee_thread_id 1) (calm 1700000300)
            (serve (Set_admin_e2ee_thread_id 2 "t-900" "" "GROUP") (calm 1700000200)
                   sample_store_with_alice))
  = Return (Some "t-100").
Proof.
  assert (Hne : 2 <> 1) by discriminate.
  split; [exact Hne |].
  destruct (updates_touch_one_user (calm 1700000200) sample_store_with_alice 2 1 Hne)
    as (H1 & _ & H3).
  split.
  - rewrite H1. reflexivity.
  - rewrite H3. reflexivity.
Defined.

(** ** How updates compose *)


(** X17.  Each function writes its own table only, in every environment:
    [create_user] never touches [admin_threads]; the two configuration
    updates never touch [users], its counter or [admin_threads], and
    neither add nor remove a configuration row; the upsert never touches
    [users], its counter or [user_configs]. *)
Theorem functions_write_their_own_table e s :
  (forall u p, admin_threads (serve (Create_user u p) e s) = admin_threads s) /\
  (forall i c n d k m,
     users (serve (Update_user_config i c n d k m) e s) = users s /\
     sqlite_sequence (serve (Update_user_config i c n d k m) e s) = sqlite_sequence s /\
     admin_threads (serve (Update_user_config i c n d k m) e s) = admin_threads s /\
     map UserConfigs.user_id (config_rows (serve (Update_user_config i c n d k m) e s))
     = map UserConfigs.user_id (config_rows s)) /\
  (forall i b,
     users (serve (Set_automation_running i b) e s) = users s /\
     sqlite_sequence (serve (Set_automation_running i b) e s) = sqlite_sequence s /\
     admin_threads (serve (Set_automation_running i b) e s) = admin_threads s /\
     map UserConfigs.user_id (config_rows (serve (Set_automation_running i b) e s))
     = map UserConfigs.user_id (config_rows s)) /\
  (forall i th c k,
     users (serve (Set_admin_e2ee_thread_id i th c k) e s) = users s /\
     sqlite_sequence (serve (Set_admin_e2ee_thread_id i th c k) e s) = sqlite_sequence s /\
     user_configs (serve (Set_admin_e2ee_thread_id i th c k) e s) = user_configs s).
Proof.
  split; [| split; [| split]].
  - intros u p. cbn [serve].
    destruct (create_user_outcomes e s u p) as [[msg ->] | [_ ->]]; reflexivity.
  - intros i c n d k m.
    destruct (update_user_config_rows e s i c n d k m) as [-> | ->];
      repeat split; try reflexivity.
    unfold config_rows at 1. cbn.
    apply (update_keys UserConfigs.user_id Z.eqb). reflexivity.
  - intros i b.
    destruct (set_automation_running_rows e s i b) as [-> | ->];
      repeat split; try reflexivity.
    unfold config_rows at 1. cbn.
    apply (update_keys UserConfigs.user_id Z.eqb). reflexivity.
  - intros i th c k.
    destruct (set_admin_e2ee_thread_id_rows e s i th c k) as [-> | [-> | ->]];
      repeat split; reflexivity.
Qed.

(** ** What the lookups return on reachable stores *)

Lemma configs_of_account s i :
  consistent s -> orderly s ->
  In i (map Users.id (user_rows s)) ->
  exists r, configs_of i s = [r] /\ UserConfigs.user_id r = i /\ filled r.
Proof.
  intros Hs Ho Hin. rewrite <- (ord_configs s Ho) in Hin.
  apply in_map_iff in Hin. destruct Hin as (r & Hkey & Hin).
  exists r. split; [| split; [exact Hkey |]].
  - unfold configs_of. rewrite <- Hkey.
    apply (filter_key_unique UserConfigs.user_id Z.eqb Z.eqb_eq); [apply Hs | exact Hin].
  - pose proof (ord_filled s Ho) as Hf. rewrite Forall_forall in Hf. auto.
Qed.

(** X18.  In a store the module has produced the lookups by identifier
    answer for accounts and for nothing else.  For the id of an account,
    [get_user_config] returns a dictionary none of whose five entries is
    [None] and [get_automation_running] returns the integer 0 or 1; for
    any other id they return [None] and [False].  And
    [get_admin_e2ee_thread_id] returns [None] only when the user has no
    row in [admin_threads]. *)
Theorem lookups_answer_for_accounts s i t :
  reachable s ->
  (In i (map Users.id (user_rows s)) ->
   exists c n d k m (b : bool),
     call (get_user_config i) (calm t) s
     = (Return (Some (Config.Dict (Some c) (Some n) (Some d) (Some k) (Some m))), s) /\
     call (get_automation_running i) (calm t) s
     = (Return (PyInt (if b then 1 else 0)), s)) /\
  (~ In i (map Users.id (user_rows s)) ->
   call (get_user_config i) (calm t) s = (Return None, s) /\
   call (get_automation_running i) (calm t) s = (Return (PyBool false), s)) /\
  (call (get_admin_e2ee_thread_id i) (calm t) s = (Return None, s) ->
   threads_of i s = []).
Proof.
  intros Hr. pose proof (reachable_consistent s Hr) as Hs.
  pose proof (reachable_orderly s Hr) as Ho.
  split; [| split].
  - intros Hin.
    destruct (configs_of_account s i Hs Ho Hin) as (r & Hrow & _ & Hfill).
    destruct Hfill as (c & n & d & k & m & b & Hshape).
    exists c, n, d, k, m, b.
    rewrite (get_user_config_row s t i r [] Hrow),
            (get_automation_running_row s t i r [] Hrow).
    rewrite Hshape. cbn. split; reflexivity.
  - intros Hout. rewrite <- (ord_configs s Ho) in Hout.
    assert (Hnone : configs_of i s = []).
    { apply (filter_key_absent UserConfigs.user_id Z.eqb Z.eqb_eq). exact Hout. }
    rewrite get_user_config_calm, get_automation_running_calm, Hnone.
    split; reflexivity.
  - rewrite get_admin_e2ee_thread_id_calm.
    destruct (threads_of i s) as [|r rest] eqn:E; [reflexivity |].
    intros H. exfalso.
    assert (Hin : In r (thread_rows s)).
    { apply (filter_key_In AdminThreads.user_id Z.eqb Z.eqb_eq _ i).
      fold (threads_of i s). rewrite E. left. reflexivity. }
    pose proof (ord_threads s Ho) as Hth. rewrite Forall_forall in Hth.
    apply (Hth r Hin). congruence.
Qed.

Lemma lookups_answer_for_accounts_witness :
  reachable sample_store /\
  In 1 (map Users.id (user_rows sample_store)) /\
  ~ In 2 (map Users.id (user_rows sample_store)) /\
  call (get_user_config 2) (calm 1700000100) sample_store = (Return None, sample_store) /\
  exists c n d k m (b : bool),
    call (get_user_config 1) (calm 1700000100) sample_store
    = (Return (Some (Config.Dict (Some c) (Some n) (Some d) (Some k) (Some m))),
       sample_store) /\
    call (get_automation_running 1) (calm 1700000100) sample_store
    = (Return (PyInt (if b then 1 else 0)), sample_store).
Proof.
  assert (Hin : In 1 (map Users.id (user_rows sample_store))) by (left; reflexivity).
  assert (Hout : ~ In 2 (map Users.id (user_rows sample_store))).
  { intros [H | []]. discriminate H. }
  split; [exact sample_store_reachable |]. split; [exact Hin |]. split; [exact Hout |].
  split.
  - exact (proj1 (proj1 (proj2 (lookups_answer_for_accounts sample_store 2 1700000100
                                  sample_store_reachable)) Hout)).
  - exact (proj1 (lookups_answer_for_accounts sample_store 1 1700000100
                    sample_store_reachable) Hin).
Defined.

(** ** Admin threads and accounts *)


